(** * RS485 framing protocol: a shallow embedding of [rs485/rs485.py]

    The class [RS485] frames a byte string as
    [STX, nibble pairs ..., ETX, CRC nibble pair] and reassembles such packets
    from a byte stream with a three-state machine.  Python integers are
    unbounded, so bytes, nibbles and counters are modelled in [Z]; the
    operators [>>], [<<], [&], [|] and [^] are [Z.shiftr], [Z.shiftl],
    [Z.land], [Z.lor] and [Z.lxor]. *)

From Stdlib Require Import String ZArith List Bool Lia.
Import ListNotations.
Local Open Scope Z_scope.

(** ** Exceptions and results *)

Inductive Exception : Type :=
| RuntimeError (msg : string)
| IndexError.

Inductive Result (A : Type) : Type :=
| Ok (a : A)
| Raise (e : Exception).

Arguments Ok {A} a.
Arguments Raise {A} e.

(** ** The transport

    The three callbacks are supplied by the caller.  [SerialWrapper] binds
    them to a serial port: [fWrite] queues one byte for transmission,
    [fAvailable] is the number of bytes waiting and [fRead] takes the oldest
    of them.  A port is two FIFO buffers. *)

Record Port : Type := mkPort {
  written : list Z;   (* bytes handed to fWrite, oldest first *)
  waiting_bytes : list Z  (* bytes fAvailable/fRead still hold, oldest first *)
}.

Definition fWrite (aByte : Z) (p : Port) : Port :=
  mkPort (written p ++ [aByte]) (waiting_bytes p).

Definition fAvailable (p : Port) : Z :=
  Z.of_nat (length (waiting_bytes p)).

Definition fRead (p : Port) : option (Z * Port) :=
  match waiting_bytes p with
  | [] => None
  | b :: rest => Some (b, mkPort (written p) rest)
  end.

(** ** The receiver object *)

Inductive State : Type :=
| waiting       (* Waiting for STX *)
| receiveData   (* ETX not received, receiving data *)
| receiveCrc.   (* ETX received, receiving CRC *)

Definition State_eqb (a b : State) : bool :=
  match a, b with
  | waiting, waiting | receiveData, receiveData | receiveCrc, receiveCrc => true
  | _, _ => false
  end.

(** [datetime.datetime.now()] is read from outside; its value is a [Time]. *)
Definition Time : Type := Z.

Record RS485 : Type := mkRS485 {
  _callbackWrite : bool;       (* fWrite was supplied (is not None) *)
  _callbackAvailable : bool;   (* fAvailable was supplied *)
  _callbackRead : bool;        (* fRead was supplied *)
  _packets : list (list Z);    (* completely received packets *)
  errorCount : Z;
  _startTime : option Time;
  _data : list Z;              (* bytes received for the current packet *)
  state : State;
  _firstNibble : option Z
}.

Definition _STX : Z := 2.
Definition _ETX : Z := 3.
Definition _MAX_LENGTH : Z := 255.

(** [reset]: the three assignments of the method, nothing else. *)
Definition reset (r : RS485) : RS485 :=
  mkRS485 (_callbackWrite r) (_callbackAvailable r) (_callbackRead r)
          (_packets r) (errorCount r) (_startTime r)
          [] waiting None.

(** [__init__]: store the callbacks, empty queue, zero errors, no start time,
    then [reset]. *)
Definition init (w a rd : bool) : RS485 :=
  reset (mkRS485 w a rd [] 0 None [] waiting None).

(** Field updates used by [update]. *)
Definition bump_errorCount (r : RS485) : RS485 :=
  mkRS485 (_callbackWrite r) (_callbackAvailable r) (_callbackRead r)
          (_packets r) (errorCount r + 1) (_startTime r)
          (_data r) (state r) (_firstNibble r).

Definition with_state (s : State) (r : RS485) : RS485 :=
  mkRS485 (_callbackWrite r) (_callbackAvailable r) (_callbackRead r)
          (_packets r) (errorCount r) (_startTime r)
          (_data r) s (_firstNibble r).

Definition with_startTime (t : Time) (r : RS485) : RS485 :=
  mkRS485 (_callbackWrite r) (_callbackAvailable r) (_callbackRead r)
          (_packets r) (errorCount r) (Some t)
          (_data r) (state r) (_firstNibble r).

Definition with_firstNibble (n : option Z) (r : RS485) : RS485 :=
  mkRS485 (_callbackWrite r) (_callbackAvailable r) (_callbackRead r)
          (_packets r) (errorCount r) (_startTime r)
          (_data r) (state r) n.

Definition append_data (byte : Z) (r : RS485) : RS485 :=
  mkRS485 (_callbackWrite r) (_callbackAvailable r) (_callbackRead r)
          (_packets r) (errorCount r) (_startTime r)
          (_data r ++ [byte]) (state r) (_firstNibble r).

Definition append_packet (pkt : list Z) (r : RS485) : RS485 :=
  mkRS485 (_callbackWrite r) (_callbackAvailable r) (_callbackRead r)
          (_packets r ++ [pkt]) (errorCount r) (_startTime r)
          (_data r) (state r) (_firstNibble r).

(** ** CRC-8 *)

(** One pass of the inner loop [for i in range(8)], on the pair [(crc, byte)]. *)
Definition crc8_bit (cb : Z * Z) : Z * Z :=
  let '(crc, byte) := cb in
  let mix := Z.land (Z.lxor crc byte) 1 in
  let crc := Z.shiftr crc 1 in
  let crc := if mix =? 0 then crc else Z.lxor crc 140 in
  (crc, Z.shiftr byte 1).

(** The body of the outer loop: eight passes, the shifted byte is dropped. *)
Definition crc8_byte (crc byte : Z) : Z :=
  fst (Nat.iter 8 crc8_bit (crc, byte)).

Definition _crc8 (data : list Z) : Z :=
  fold_left crc8_byte data 0.

(** ** Nibble encoding *)

(** The wire byte written for one nibble: [(nibble << 4) | (nibble ^ 0x0F)]. *)
Definition complemented (nibble : Z) : Z :=
  Z.lor (Z.shiftl nibble 4) (Z.lxor nibble 15).

Definition _sendComplemented (byte : Z) (p : Port) : Port :=
  (* First nibble (MSB) *)
  let nibble := Z.shiftr byte 4 in
  let p := fWrite (complemented nibble) p in
  (* Second nibble (LSB) *)
  let nibble := Z.land byte 15 in
  fWrite (complemented nibble) p.

(** The receiver's test [(byte >> 4) != ((byte & 0x0F) ^ 0x0F)]. *)
Definition malformed (byte : Z) : bool :=
  negb (Z.shiftr byte 4 =? Z.lxor (Z.land byte 15) 15).

(** ** Transmitter *)

Definition sendMsg (r : RS485) (data : list Z) (p : Port) : Result Port :=
  if _callbackWrite r then
    let p := fWrite _STX p in
    let p := fold_left (fun p byte => _sendComplemented byte p) data p in
    let p := fWrite _ETX p in
    Ok (_sendComplemented (_crc8 data) p)
  else Raise (RuntimeError "No fWrite supplied."%string).

(** ** Receiver *)

(** The body of the [while] loop of [update] for one byte read; [now] is
    what [datetime.datetime.now()] returns should the byte be STX. *)
Definition step (now : Time) (r : RS485) (byte : Z) : RS485 :=
  if byte =? _STX then
    let r := with_startTime now r in
    let r := if State_eqb (state r) waiting then r else bump_errorCount r in
    let r := reset r in
    with_state receiveData r
  else if byte =? _ETX then
    match _firstNibble r with
    | None => with_state receiveCrc r
    | Some _ =>
        (* ETX should not arrive between two nibbles *)
        reset (bump_errorCount r)
    end
  else if State_eqb (state r) waiting then
    (* Wait until packet officially starts *)
    r
  else if malformed byte then
    reset (bump_errorCount r)
  else
    (* Drop extra complemented bits *)
    let byte := Z.shiftr byte 4 in
    match _firstNibble r with
    | None =>
        (* Remember the MSB nibble until we receive the second nibble *)
        with_firstNibble (Some byte) r
    | Some first =>
        (* Assemble the two nibbles into a byte *)
        let byte := Z.lor byte (Z.shiftl first 4) in
        let r := with_firstNibble None r in
        if State_eqb (state r) receiveData then
          if Z.of_nat (length (_data r)) <? _MAX_LENGTH then append_data byte r
          else (* Overflow *) reset (bump_errorCount r)
        else if negb (_crc8 (_data r) =? byte) then
          (* Bad CRC *)
          reset (bump_errorCount r)
        else
          (* Complete packet received - add to list *)
          with_state waiting (append_packet (_data r) r)
    end.

(** The [while self._callbackAvailable() > 0] loop on a port: one [step] per
    waiting byte, oldest first, until the port is drained.  [clock k] is the
    time at the [k]-th byte.  [update_loop] below is the same loop through
    the callbacks; [update_loop_drains] shows that it stops and computes
    this. *)
Fixpoint drain (clock : nat -> Time) (k : nat) (r : RS485) (bytes : list Z)
  : RS485 :=
  match bytes with
  | [] => r
  | byte :: rest => drain clock (S k) (step (clock k) r byte) rest
  end.

(** The loop of [update] as it is written, through the callbacks:
    [while self._callbackAvailable() > 0: byte = self._callbackRead(); ...].
    [fuel] bounds the number of passes; [None] means it ran out. *)
Fixpoint update_loop (fuel : nat) (clock : nat -> Time) (k : nat) (r : RS485)
  (p : Port) : option (RS485 * Port) :=
  if fAvailable p >? 0 then
    match fuel with
    | O => None
    | S fuel =>
        match fRead p with
        | None => None
        | Some (byte, p') => update_loop fuel clock (S k) (step (clock k) r byte) p'
        end
    end
  else Some (r, p).

(** [available]: [len(self._packets) > 0]. *)
Definition available (r : RS485) : bool :=
  negb (Nat.eqb (length (_packets r)) 0).

(** [update]: both callbacks must be there; then the loop; the result is
    [self.available()]. *)
Definition update (clock : nat -> Time) (r : RS485) (p : Port)
  : Result (bool * RS485 * Port) :=
  if negb (_callbackAvailable r) then Raise (RuntimeError "No fAvailable supplied."%string)
  else if negb (_callbackRead r) then Raise (RuntimeError "No fRead supplied."%string)
  else
    let r := drain clock 0 r (waiting_bytes p) in
    Ok (available r, r, mkPort (written p) []).

(** [getPacket]: [self._packets.pop(0)], which raises [IndexError] on an
    empty list. *)
Definition getPacket (r : RS485) : Result (list Z * RS485) :=
  match _packets r with
  | [] => Raise IndexError
  | pkt :: rest =>
      Ok (pkt, mkRS485 (_callbackWrite r) (_callbackAvailable r) (_callbackRead r)
                       rest (errorCount r) (_startTime r)
                       (_data r) (state r) (_firstNibble r))
  end.

Definition getErrorCount (r : RS485) : Z := errorCount r.

Definition getPacketStartTime (r : RS485) : option Time := _startTime r.

Definition isPacketStarted (r : RS485) : bool :=
  negb (State_eqb (state r) waiting).

(** ** Calls on the object

    Every method of the class, as a caller may invoke it.  [after c (r, p)]
    is the object and the port once the call has returned or raised; the
    value returned is dropped.  A call that raises does so before it changes
    anything. *)

Inductive Call : Type :=
| call_reset
| call_sendMsg (data : list Z)
| call_update (clock : nat -> Time)
| call_available
| call_getPacket
| call_getErrorCount
| call_getPacketStartTime
| call_isPacketStarted.

Definition after (c : Call) (rp : RS485 * Port) : RS485 * Port :=
  let '(r, p) := rp in
  match c with
  | call_reset => (reset r, p)
  | call_sendMsg data =>
      match sendMsg r data p with
      | Ok p' => (r, p')
      | Raise _ => (r, p)
      end
  | call_update clock =>
      match update clock r p with
      | Ok (_, r', p') => (r', p')
      | Raise _ => (r, p)
      end
  | call_getPacket =>
      match getPacket r with
      | Ok (_, r') => (r', p)
      | Raise _ => (r, p)
      end
  | call_available | call_getErrorCount | call_getPacketStartTime
  | call_isPacketStarted => (r, p)
  end.

(** The receiver states a program can produce: construction, then any calls
    with any port contents. *)
Inductive reachable : RS485 -> Prop :=
| reachable_init (w a rd : bool) : reachable (init w a rd)
| reachable_after (c : Call) (r : RS485) (p : Port) :
    reachable r -> reachable (fst (after c (r, p))).

(** ** Reference definitions, written from the protocol description *)

Definition is_byte (b : Z) : Prop := 0 <= b < 256.

(** The sixteen legal wire bytes. *)
Definition alphabet : list Z :=
  [0x0F; 0x1E; 0x2D; 0x3C; 0x4B; 0x5A; 0x69; 0x78;
   0x87; 0x96; 0xA5; 0xB4; 0xC3; 0xD2; 0xE1; 0xF0].

(** The nibble pair of one byte, high nibble first. *)
Definition enc (b : Z) : list Z :=
  [complemented (Z.shiftr b 4); complemented (Z.land b 15)].

(** The packet on the wire:
    [STX, enc(b0_hi), enc(b0_lo), ..., ETX, enc(crc_hi), enc(crc_lo)]. *)
Definition wire (payload : list Z) : list Z :=
  [_STX] ++ flat_map enc payload ++ [_ETX] ++ enc (_crc8 payload).

(** The reference CRC-8: the accumulator starts at 0; the 8 bits of each
    byte are consumed least significant first; when (accumulator XOR bit) is
    odd the accumulator is shifted right and XORed with 0x8C, otherwise it is
    only shifted right. *)
Definition crc8_reference_bit (acc : Z) (bit : bool) : Z :=
  if Z.odd (Z.lxor acc (Z.b2z bit))
  then Z.lxor (Z.shiftr acc 1) 0x8C
  else Z.shiftr acc 1.

Definition bits_lsb_first (byte : Z) : list bool :=
  map (fun i => Z.testbit byte (Z.of_nat i)) (seq 0 8).

Definition crc8_reference (data : list Z) : Z :=
  fold_left (fun acc byte => fold_left crc8_reference_bit (bits_lsb_first byte) acc)
            data 0.

(** ** Packet bookkeeping

    Whether a packet is under construction, told from what the receiver
    visibly did with each byte and not from its [state] field: a start
    marker opens a packet; a counted error aborts it; a packet added to
    the queue completes it. *)
Definition open_after (now : Time) (r : RS485) (byte : Z) (open : bool) : bool :=
  if byte =? _STX then true
  else
    let r' := step now r byte in
    if errorCount r <? errorCount r' then false
    else if (length (_packets r) <? length (_packets r'))%nat then false
    else open.

Fixpoint drain_open (clock : nat -> Time) (k : nat) (r : RS485) (open : bool)
  (bytes : list Z) : RS485 * bool :=
  match bytes with
  | [] => (r, open)
  | byte :: rest =>
      drain_open clock (S k) (step (clock k) r byte)
                 (open_after (clock k) r byte open) rest
  end.

(** A receiver that has taken the packet [STX, 0x4B, 0x87, ETX] (payload
    [0x48]) and the first wire byte 0x87 of its checksum 0x84. *)
Definition crc_pending : RS485 :=
  drain (fun _ => 0) 0 (init true true true) [2; 75; 135; 3; 135].

(** What every receiver state satisfies: the buffer fits, it holds bytes,
    and a pending nibble is four bits wide (so [bytearray.append] in
    [update] is never handed a value outside 0..255). *)
Definition receiver_ok (r : RS485) : Prop :=
  (length (_data r) <= 255)%nat
  /\ Forall is_byte (_data r)
  /\ (forall first, _firstNibble r = Some first -> 0 <= first < 16).

(** Everything the receiver and the framing need of the wire byte of one
    nibble, as one boolean. *)
Definition nibble_ok (n : Z) : bool :=
  negb (complemented n =? _STX) && negb (complemented n =? _ETX)
  && negb (malformed (complemented n))
  && (Z.shiftr (complemented n) 4 =? n)
  && (0 <=? complemented n) && (complemented n <? 256).

(** ** Callers

    A sender that frames several messages one after the other, as the
    example scripts do with one, and a receiver's owner that takes [n]
    packets off the queue.  Either stops at the first exception. *)
Fixpoint sendMsgs (r : RS485) (msgs : list (list Z)) (p : Port) : Result Port :=
  match msgs with
  | [] => Ok p
  | data :: rest =>
      match sendMsg r data p with
      | Ok p' => sendMsgs r rest p'
      | Raise e => Raise e
      end
  end.

Fixpoint getPackets (n : nat) (r : RS485) : Result (list (list Z) * RS485) :=
  match n with
  | O => Ok ([], r)
  | S n =>
      match getPacket r with
      | Ok (pkt, r') =>
          match getPackets n r' with
          | Ok (pkts, r'') => Ok (pkt :: pkts, r'')
          | Raise e => Raise e
          end
      | Raise e => Raise e
      end
  end.

(** A payload the protocol carries: bytes, at most 255 of them. *)
Definition packet_ok (pkt : list Z) : Prop :=
  Forall is_byte pkt /\ (length pkt <= 255)%nat.

(** The bytes of [bytes] from the last start marker on, if there is one. *)
Fixpoint last_STX (k : nat) (bytes : list Z) (found : option nat) : option nat :=
  match bytes with
  | [] => found
  | byte :: rest =>
      last_STX (S k) rest (if byte =? _STX then Some k else found)
  end.

(** A frame whose checksum byte is [crc], right or wrong:
    [wire payload] is [frame payload (_crc8 payload)]. *)
Definition frame (payload : list Z) (crc : Z) : list Z :=
  [_STX] ++ flat_map enc payload ++ [_ETX] ++ enc crc.

(** All byte values, for checks by enumeration. *)
Definition all_bytes : list Z := map Z.of_nat (seq 0 256).

(** * Proofs *)

(** ** Proof tools *)

Ltac fields :=
  cbn [_callbackWrite _callbackAvailable _callbackRead _packets errorCount
       _startTime _data state _firstNibble reset bump_errorCount with_state
       with_startTime with_firstNibble append_data append_packet init] in *.

Ltac step_cases :=
  unfold step; fields;
  repeat (match goal with
          | |- context [if ?c then _ else _] => destruct c eqn:?
          | |- context [match ?o with Some _ => _ | None => _ end] =>
              destruct o eqn:?
          end; fields).

Lemma State_eqb_spec (a b : State) : reflect (a = b) (State_eqb a b).
Proof. destruct a, b; constructor; congruence. Qed.

(** ** Checking a predicate on every byte value *)

Lemma forall_below (n : nat) (f : Z -> bool) :
  forallb f (map Z.of_nat (seq 0 n)) = true ->
  forall b, 0 <= b < Z.of_nat n -> f b = true.
Proof.
  intros H b Hb.
  rewrite forallb_forall in H. apply H.
  apply in_map_iff. exists (Z.to_nat b). split.
  - lia.
  - apply in_seq. lia.
Qed.

Lemma forall_bytes (f : Z -> bool) :
  forallb f (map Z.of_nat (seq 0 256)) = true ->
  forall b, is_byte b -> f b = true.
Proof. intros H b Hb. apply (forall_below 256 f H). exact Hb. Qed.

Lemma forall_nibbles (f : Z -> bool) :
  forallb f (map Z.of_nat (seq 0 16)) = true ->
  forall n, 0 <= n < 16 -> f n = true.
Proof. intros H n Hn. apply (forall_below 16 f H). exact Hn. Qed.

(** ** The nibble codec *)

Lemma nibble_ok_all (n : Z) : 0 <= n < 16 -> nibble_ok n = true.
Proof. apply forall_nibbles. vm_compute. reflexivity. Qed.

Lemma complemented_facts (n : Z) :
  0 <= n < 16 ->
  complemented n <> _STX /\ complemented n <> _ETX /\
  malformed (complemented n) = false /\
  Z.shiftr (complemented n) 4 = n /\
  is_byte (complemented n).
Proof.
  intros Hn. pose proof (nibble_ok_all n Hn) as H.
  unfold nibble_ok in H.
  rewrite !andb_true_iff, !negb_true_iff in H.
  destruct H as [[[[[H1 H2] H3] H4] H5] H6].
  unfold is_byte. repeat split; try lia; assumption.
Qed.

Lemma high_nibble_range (b : Z) : is_byte b -> 0 <= Z.shiftr b 4 < 16.
Proof.
  unfold is_byte. intros Hb. rewrite Z.shiftr_div_pow2 by lia.
  change (2 ^ 4) with 16. split.
  - apply Z.div_pos; lia.
  - apply Z.div_lt_upper_bound; lia.
Qed.

Lemma low_nibble_range (b : Z) : 0 <= Z.land b 15 < 16.
Proof.
  change 15 with (Z.ones 4). rewrite Z.land_ones by lia.
  change (2 ^ 4) with 16. apply Z.mod_pos_bound. lia.
Qed.

Lemma nibbles_join (b : Z) :
  is_byte b -> Z.lor (Z.land b 15) (Z.shiftl (Z.shiftr b 4) 4) = b.
Proof.
  intros Hb. apply Z.eqb_eq.
  revert b Hb.
  apply (forall_bytes
           (fun b => Z.lor (Z.land b 15) (Z.shiftl (Z.shiftr b 4) 4) =? b)).
  vm_compute. reflexivity.
Qed.

Lemma complemented_in_alphabet (n : Z) :
  0 <= n < 16 -> In (complemented n) alphabet.
Proof.
  intros Hn.
  assert (H : existsb (Z.eqb (complemented n)) alphabet = true).
  { revert n Hn.
    apply (forall_nibbles (fun n => existsb (Z.eqb (complemented n)) alphabet)).
    vm_compute. reflexivity. }
  apply existsb_exists in H. destruct H as (w & Hw & E).
  apply Z.eqb_eq in E. rewrite E. exact Hw.
Qed.

Lemma alphabet_is_image (w : Z) :
  In w alphabet -> 0 <= Z.shiftr w 4 < 16 /\ complemented (Z.shiftr w 4) = w.
Proof.
  unfold alphabet. intros H.
  repeat (destruct H as [H | H]; [subst w; vm_compute; intuition congruence | ]).
  contradiction.
Qed.

Lemma outside_alphabet_malformed (b : Z) :
  is_byte b -> ~ In b alphabet -> malformed b = true.
Proof.
  intros Hb Hout.
  assert (H : existsb (Z.eqb b) alphabet || malformed b = true).
  { revert b Hb Hout. intros b Hb _. revert b Hb.
    apply (forall_bytes (fun b => existsb (Z.eqb b) alphabet || malformed b)).
    vm_compute. reflexivity. }
  apply orb_true_iff in H. destruct H as [H | H]; [ | exact H].
  exfalso. apply Hout.
  apply existsb_exists in H. destruct H as (w & Hw & E).
  apply Z.eqb_eq in E. rewrite E. exact Hw.
Qed.

Lemma written_sendComplemented (byte : Z) (p : Port) :
  _sendComplemented byte p = mkPort (written p ++ enc byte) (waiting_bytes p).
Proof.
  unfold _sendComplemented, fWrite, enc. cbn [written waiting_bytes].
  rewrite <- app_assoc. reflexivity.
Qed.

(** C3: the bytes the nibble encoding can write are exactly the sixteen
    listed values; none of them is the start marker 2 or the end marker 3;
    the receiver's structural check accepts each of them and its high half
    is the nibble that was encoded; every other byte value 0..255 (2 and 3
    among them) fails the structural check. *)
Theorem nibble_alphabet :
  (forall w, (exists n, 0 <= n < 16 /\ complemented n = w) <-> In w alphabet)
  /\ (forall byte p, is_byte byte ->
        exists w1 w2,
          written (_sendComplemented byte p) = written p ++ [w1; w2]
          /\ In w1 alphabet /\ In w2 alphabet)
  /\ length alphabet = 16%nat
  /\ (forall w, In w alphabet -> w <> _STX /\ w <> _ETX)
  /\ (forall n, 0 <= n < 16 ->
        malformed (complemented n) = false
        /\ Z.shiftr (complemented n) 4 = n)
  /\ (forall b, is_byte b -> ~ In b alphabet -> malformed b = true).
Proof.
  split; [ | split; [ | split; [ | split; [ | split]]]].
  - intros w. split.
    + intros (n & Hn & <-). apply complemented_in_alphabet. exact Hn.
    + intros H. exists (Z.shiftr w 4). apply alphabet_is_image. exact H.
  - intros byte p Hb.
    exists (complemented (Z.shiftr byte 4)), (complemented (Z.land byte 15)).
    rewrite written_sendComplemented. cbn [written]. split; [reflexivity | ].
    split; apply complemented_in_alphabet.
    + apply high_nibble_range. exact Hb.
    + apply low_nibble_range.
  - reflexivity.
  - intros w H. apply alphabet_is_image in H. destruct H as [Hn E].
    rewrite <- E. pose proof (complemented_facts _ Hn). tauto.
  - intros n Hn. pose proof (complemented_facts _ Hn). tauto.
  - exact outside_alphabet_malformed.
Qed.

Lemma nibble_alphabet_witness :
  malformed (complemented 5) = false /\ Z.shiftr (complemented 5) 4 = 5.
Proof.
  destruct nibble_alphabet as (_ & _ & _ & _ & H & _).
  apply (H 5). lia.
Defined.

(** ** CRC-8 against the reference *)

Lemma land_1_odd (x : Z) : Z.land x 1 = Z.b2z (Z.odd x).
Proof.
  change 1 with (Z.ones 1). rewrite Z.land_ones by lia.
  change (2 ^ 1) with 2. rewrite <- Z.bit0_mod, Z.bit0_odd. reflexivity.
Qed.

Lemma odd_lxor (a b : Z) : Z.odd (Z.lxor a b) = xorb (Z.odd a) (Z.odd b).
Proof. rewrite <- !Z.bit0_odd. apply Z.lxor_spec. Qed.

Lemma crc8_bit_reference (crc byte : Z) :
  crc8_bit (crc, byte)
  = (crc8_reference_bit crc (Z.testbit byte 0), Z.shiftr byte 1).
Proof.
  unfold crc8_bit, crc8_reference_bit. f_equal.
  rewrite land_1_odd, !odd_lxor, <- (Z.bit0_odd (Z.b2z _)), Z.b2z_bit0.
  rewrite Z.bit0_odd.
  destruct (xorb (Z.odd crc) (Z.odd byte)); reflexivity.
Qed.

Lemma iter_crc8_bit (k : nat) (crc byte : Z) :
  Nat.iter k crc8_bit (crc, byte)
  = (fold_left crc8_reference_bit
       (map (fun i => Z.testbit byte (Z.of_nat i)) (seq 0 k)) crc,
     Z.shiftr byte (Z.of_nat k)).
Proof.
  induction k as [ | k IH].
  - cbn [Nat.iter nat_rect seq map fold_left Z.of_nat].
    rewrite Z.shiftr_0_r. reflexivity.
  - rewrite Nat.iter_succ, IH, crc8_bit_reference.
    rewrite seq_S, map_app, fold_left_app. cbn [map fold_left Nat.add].
    rewrite Z.shiftr_spec by lia. rewrite Z.add_0_l.
    rewrite Z.shiftr_shiftr by lia.
    replace (Z.of_nat k + 1) with (Z.of_nat (S k)) by lia.
    reflexivity.
Qed.

Lemma crc8_byte_reference (crc byte : Z) :
  crc8_byte crc byte = fold_left crc8_reference_bit (bits_lsb_first byte) crc.
Proof. unfold crc8_byte. rewrite iter_crc8_bit. reflexivity. Qed.

(** C2: on every byte sequence [_crc8] returns the value of the reference
    CRC-8 (accumulator 0, bits least significant first, shift right, XOR
    with 0x8C when accumulator XOR bit is odd). *)
Theorem crc8_matches_reference (data : list Z) :
  _crc8 data = crc8_reference data.
Proof.
  unfold _crc8, crc8_reference. generalize 0 as acc.
  induction data as [ | byte data IH]; intros acc.
  - reflexivity.
  - cbn [fold_left]. rewrite crc8_byte_reference. apply IH.
Qed.

(** ** The transmitter *)

Lemma written_send_all (data : list Z) (p : Port) :
  fold_left (fun p byte => _sendComplemented byte p) data p
  = mkPort (written p ++ flat_map enc data) (waiting_bytes p).
Proof.
  revert p. induction data as [ | byte data IH]; intros p.
  - cbn. rewrite app_nil_r. destruct p; reflexivity.
  - cbn [fold_left flat_map]. rewrite IH, written_sendComplemented.
    cbn [written waiting_bytes]. rewrite <- app_assoc. reflexivity.
Qed.

Lemma sendMsg_written (r : RS485) (payload : list Z) (p : Port) :
  _callbackWrite r = true ->
  sendMsg r payload p = Ok (mkPort (written p ++ wire payload) (waiting_bytes p)).
Proof.
  intros Hw. unfold sendMsg. rewrite Hw.
  rewrite written_sendComplemented, written_send_all.
  unfold fWrite, wire. cbn [written waiting_bytes].
  rewrite <- !app_assoc. reflexivity.
Qed.

Lemma length_flat_map_enc (payload : list Z) :
  length (flat_map enc payload) = (2 * length payload)%nat.
Proof.
  induction payload as [ | b payload IH]; cbn [flat_map length enc app]; lia.
Qed.

(** C4: for every payload (of length 0 to 255 in particular) [sendMsg]
    appends to the byte sink exactly STX, the two wire bytes of each payload
    byte in order, ETX, and the two wire bytes of the CRC-8 of the payload:
    1 + 2*len(payload) + 1 + 2 bytes, and leaves the rest of the port as it
    was. *)
Theorem sendMsg_writes_packet (r : RS485) (payload : list Z) (p : Port) :
  _callbackWrite r = true ->
  (length payload <= 255)%nat ->
  exists p',
    sendMsg r payload p = Ok p'
    /\ written p' =
         written p ++
           [2] ++ flat_map (fun b => [complemented (Z.shiftr b 4);
                                      complemented (Z.land b 15)]) payload
           ++ [3] ++ [complemented (Z.shiftr (_crc8 payload) 4);
                      complemented (Z.land (_crc8 payload) 15)]
    /\ waiting_bytes p' = waiting_bytes p
    /\ length (written p') =
         (length (written p) + (1 + 2 * length payload + 1 + 2))%nat.
Proof.
  intros Hw _. eexists. split; [apply sendMsg_written; exact Hw | ].
  cbn [written waiting_bytes]. split; [reflexivity | split; [reflexivity | ]].
  unfold wire. rewrite !length_app, length_flat_map_enc. cbn [length enc]. lia.
Qed.

Lemma sendMsg_writes_packet_witness :
  exists p',
    sendMsg (init true true true) [72; 105] (mkPort [] []) = Ok p'
    /\ written p' = [2; 75; 135; 105; 150; 3; 30; 75]
    /\ waiting_bytes p' = []
    /\ length (written p') = 8%nat.
Proof.
  destruct (sendMsg_writes_packet (init true true true) [72; 105] (mkPort [] [])
              eq_refl ltac:(cbn; lia)) as (p' & H1 & H2 & H3 & H4).
  exists p'. repeat split; assumption.
Defined.

(** ** The CRC is a byte *)

Lemma crc8_bit_byte (cb : Z * Z) : is_byte (fst cb) -> is_byte (fst (crc8_bit cb)).
Proof.
  destruct cb as [crc byte]. cbn [fst]. intros Hc.
  assert (H : (fun c => (0 <=? Z.shiftr c 1) && (Z.shiftr c 1 <? 256)
                        && (0 <=? Z.lxor (Z.shiftr c 1) 140)
                        && (Z.lxor (Z.shiftr c 1) 140 <? 256)) crc = true).
  { revert crc Hc.
    apply (forall_bytes
             (fun c => (0 <=? Z.shiftr c 1) && (Z.shiftr c 1 <? 256)
                       && (0 <=? Z.lxor (Z.shiftr c 1) 140)
                       && (Z.lxor (Z.shiftr c 1) 140 <? 256))).
    vm_compute. reflexivity. }
  cbv beta in H. rewrite !andb_true_iff in H.
  unfold crc8_bit, is_byte.
  destruct (Z.land (Z.lxor crc byte) 1 =? 0); cbn [fst]; lia.
Qed.

Lemma crc8_byte_byte (crc byte : Z) : is_byte crc -> is_byte (crc8_byte crc byte).
Proof.
  intros Hc. unfold crc8_byte.
  generalize 8%nat as k. induction k as [ | k IH].
  - exact Hc.
  - rewrite Nat.iter_succ. apply crc8_bit_byte. exact IH.
Qed.

Lemma crc8_byte_range (data : list Z) : is_byte (_crc8 data).
Proof.
  unfold _crc8.
  assert (H0 : is_byte 0) by (unfold is_byte; lia).
  revert H0. generalize 0 as acc.
  induction data as [ | b data IH]; intros acc Hacc.
  - exact Hacc.
  - cbn [fold_left]. apply IH. apply crc8_byte_byte. exact Hacc.
Qed.

(** ** One step of the receiver, case by case *)

Lemma step_STX (now : Time) (r : RS485) :
  step now r _STX =
    mkRS485 (_callbackWrite r) (_callbackAvailable r) (_callbackRead r)
            (_packets r)
            (if State_eqb (state r) waiting then errorCount r else errorCount r + 1)
            (Some now) [] receiveData None.
Proof.
  unfold step. rewrite Z.eqb_refl. fields.
  destruct (State_eqb (state r) waiting); reflexivity.
Qed.

Lemma step_ETX (now : Time) (r : RS485) :
  step now r _ETX =
    match _firstNibble r with
    | None => with_state receiveCrc r
    | Some _ => reset (bump_errorCount r)
    end.
Proof. reflexivity. Qed.

Lemma step_waiting (now : Time) (r : RS485) (byte : Z) :
  state r = waiting -> byte <> _STX -> byte <> _ETX -> step now r byte = r.
Proof.
  intros Hs H2 H3. unfold step.
  apply Z.eqb_neq in H2, H3. rewrite H2, H3, Hs. reflexivity.
Qed.

Lemma step_first_nibble (now : Time) (r : RS485) (n : Z) :
  0 <= n < 16 -> state r <> waiting -> _firstNibble r = None ->
  step now r (complemented n) = with_firstNibble (Some n) r.
Proof.
  intros Hn Hs Hf. destruct (complemented_facts n Hn) as (H2 & H3 & Hm & Hd & _).
  unfold step. apply Z.eqb_neq in H2, H3. rewrite H2, H3, Hm, Hd, Hf.
  destruct (State_eqb_spec (state r) waiting); [contradiction | reflexivity].
Qed.

Lemma step_second_nibble_data (now : Time) (r : RS485) (first n : Z) :
  0 <= n < 16 -> state r = receiveData -> _firstNibble r = Some first ->
  step now r (complemented n) =
    if Z.of_nat (length (_data r)) <? _MAX_LENGTH
    then append_data (Z.lor n (Z.shiftl first 4)) (with_firstNibble None r)
    else reset (bump_errorCount (with_firstNibble None r)).
Proof.
  intros Hn Hs Hf. destruct (complemented_facts n Hn) as (H2 & H3 & Hm & Hd & _).
  unfold step. apply Z.eqb_neq in H2, H3. rewrite H2, H3, Hm, Hd, Hf, Hs.
  fields. rewrite Hs. reflexivity.
Qed.

Lemma step_second_nibble_crc (now : Time) (r : RS485) (first n : Z) :
  0 <= n < 16 -> state r = receiveCrc -> _firstNibble r = Some first ->
  step now r (complemented n) =
    if _crc8 (_data r) =? Z.lor n (Z.shiftl first 4)
    then with_state waiting (append_packet (_data r) (with_firstNibble None r))
    else reset (bump_errorCount (with_firstNibble None r)).
Proof.
  intros Hn Hs Hf. destruct (complemented_facts n Hn) as (H2 & H3 & Hm & Hd & _).
  unfold step. apply Z.eqb_neq in H2, H3. rewrite H2, H3, Hm, Hd, Hf, Hs.
  fields. rewrite Hs. cbn [State_eqb].
  destruct (_crc8 (_data r) =? Z.lor n (Z.shiftl first 4)); reflexivity.
Qed.

(** ** Draining a stream *)

Lemma drain_app (clock : nat -> Time) (k : nat) (r : RS485) (xs ys : list Z) :
  drain clock k r (xs ++ ys)
  = drain clock (k + length xs) (drain clock k r xs) ys.
Proof.
  revert k r. induction xs as [ | x xs IH]; intros k r.
  - cbn. rewrite Nat.add_0_r. reflexivity.
  - cbn [app drain length]. rewrite IH. f_equal. lia.
Qed.

Lemma drain_waiting (clock : nat -> Time) (k : nat) (r : RS485) (bytes : list Z) :
  state r = waiting ->
  Forall (fun b => b <> _STX /\ b <> _ETX) bytes ->
  drain clock k r bytes = r.
Proof.
  intros Hs Hb. revert k. induction Hb as [ | b bytes [H2 H3] _ IH]; intros k.
  - reflexivity.
  - cbn [drain]. rewrite step_waiting by assumption. apply IH.
Qed.

Lemma enc_not_markers (b : Z) :
  is_byte b -> Forall (fun w => w <> _STX /\ w <> _ETX) (enc b).
Proof.
  intros Hb. unfold enc.
  pose proof (complemented_facts _ (high_nibble_range b Hb)) as Hh.
  pose proof (complemented_facts _ (low_nibble_range b)) as Hl.
  repeat constructor; tauto.
Qed.

Lemma flat_map_enc_not_markers (payload : list Z) :
  Forall is_byte payload ->
  Forall (fun w => w <> _STX /\ w <> _ETX) (flat_map enc payload).
Proof.
  induction 1 as [ | b payload Hb _ IH]; cbn [flat_map].
  - constructor.
  - apply Forall_app. split; [apply enc_not_markers; exact Hb | exact IH].
Qed.

(** The two wire bytes of one byte, while data is being received. *)
Lemma drain_enc_data (clock : nat -> Time) (k : nat) (r : RS485) (b : Z) :
  is_byte b -> state r = receiveData -> _firstNibble r = None ->
  drain clock k r (enc b) =
    if Z.of_nat (length (_data r)) <? _MAX_LENGTH
    then append_data b r
    else reset (bump_errorCount r).
Proof.
  intros Hb Hs Hf. unfold enc. cbn [drain].
  rewrite (step_first_nibble (clock k) r (Z.shiftr b 4));
    [ | apply high_nibble_range; exact Hb | rewrite Hs; discriminate | exact Hf].
  rewrite (step_second_nibble_data _ _ (Z.shiftr b 4));
    [ | apply low_nibble_range | exact Hs | reflexivity].
  rewrite nibbles_join by exact Hb. fields.
  destruct r; fields; subst; reflexivity.
Qed.

(** The two wire bytes of the checksum, after the end marker. *)
Lemma drain_enc_crc (clock : nat -> Time) (k : nat) (r : RS485) (b : Z) :
  is_byte b -> state r = receiveCrc -> _firstNibble r = None ->
  drain clock k r (enc b) =
    if _crc8 (_data r) =? b
    then with_state waiting (append_packet (_data r) r)
    else reset (bump_errorCount r).
Proof.
  intros Hb Hs Hf. unfold enc. cbn [drain].
  rewrite (step_first_nibble (clock k) r (Z.shiftr b 4));
    [ | apply high_nibble_range; exact Hb | rewrite Hs; discriminate | exact Hf].
  rewrite (step_second_nibble_crc _ _ (Z.shiftr b 4));
    [ | apply low_nibble_range | exact Hs | reflexivity].
  rewrite nibbles_join by exact Hb. fields.
  destruct r; fields; subst; reflexivity.
Qed.

(** The wire bytes of a whole payload that fits the buffer. *)
Lemma drain_payload (clock : nat -> Time) (payload : list Z) :
  Forall is_byte payload ->
  forall (k : nat) (r : RS485),
    state r = receiveData -> _firstNibble r = None ->
    (length (_data r) + length payload <= 255)%nat ->
    drain clock k r (flat_map enc payload) =
      mkRS485 (_callbackWrite r) (_callbackAvailable r) (_callbackRead r)
              (_packets r) (errorCount r) (_startTime r)
              (_data r ++ payload) receiveData None.
Proof.
  induction 1 as [ | b payload Hb _ IH]; intros k r Hs Hf Hlen.
  - cbn [flat_map drain]. rewrite app_nil_r. destruct r; fields; subst. reflexivity.
  - cbn [flat_map length] in *. rewrite drain_app, drain_enc_data by assumption.
    replace (Z.of_nat (length (_data r)) <? _MAX_LENGTH) with true
      by (symmetry; apply Z.ltb_lt; unfold _MAX_LENGTH; lia).
    rewrite IH; fields.
    + rewrite <- app_assoc. reflexivity.
    + exact Hs.
    + exact Hf.
    + rewrite length_app. cbn [length]. lia.
Qed.

(** A whole packet, from any receiver state. *)
Lemma drain_wire (clock : nat -> Time) (k : nat) (r : RS485) (payload : list Z) :
  Forall is_byte payload -> (length payload <= 255)%nat ->
  drain clock k r (wire payload) =
    mkRS485 (_callbackWrite r) (_callbackAvailable r) (_callbackRead r)
            (_packets r ++ [payload])
            (if State_eqb (state r) waiting then errorCount r else errorCount r + 1)
            (Some (clock k)) payload waiting None.
Proof.
  intros Hb Hlen. unfold wire. cbn [app drain].
  rewrite step_STX, drain_app, drain_payload; fields;
    [ | exact Hb | reflexivity | reflexivity | cbn [length]; lia].
  cbn [app drain]. rewrite step_ETX. fields.
  rewrite drain_enc_crc; fields;
    [ | apply crc8_byte_range | reflexivity | reflexivity].
  rewrite Z.eqb_refl. reflexivity.
Qed.

(** ** The loop of [update] terminates and is [drain] *)

Lemma update_loop_drains (clock : nat -> Time) (fuel : nat) :
  forall (k : nat) (r : RS485) (p : Port),
    (length (waiting_bytes p) <= fuel)%nat ->
    update_loop fuel clock k r p
    = Some (drain clock k r (waiting_bytes p), mkPort (written p) []).
Proof.
  induction fuel as [ | fuel IH]; intros k r [out inc] Hfuel;
    cbn [waiting_bytes written] in *.
  - destruct inc as [ | b inc]; [reflexivity | cbn [length] in Hfuel; lia].
  - destruct inc as [ | b inc]; [reflexivity | ].
    cbn [length] in Hfuel.
    unfold update_loop; fold update_loop. unfold fAvailable, fRead.
    cbn [waiting_bytes written].
    replace (Z.of_nat (length (b :: inc)) >? 0) with true
      by (symmetry; apply Z.gtb_lt; cbn [length]; lia).
    rewrite IH by (cbn [waiting_bytes]; lia). reflexivity.
Qed.

(** C1: a payload of 0 to 255 bytes, sent with [sendMsg] and fed to a
    freshly constructed receiver, comes out of one [update] as the only packet
    of the queue, [getPacket] returns it unchanged, and no error is counted. *)
Theorem round_trip (clock : nat -> Time) (sender : RS485) (w : bool)
  (payload : list Z) :
  Forall is_byte payload ->
  (length payload <= 255)%nat ->
  _callbackWrite sender = true ->
  exists line rx rx',
    sendMsg sender payload (mkPort [] []) = Ok line
    /\ update clock (init w true true) (mkPort [] (written line))
       = Ok (true, rx, mkPort [] [])
    /\ _packets rx = _packets (init w true true) ++ [payload]
    /\ errorCount rx = errorCount (init w true true)
    /\ getPacket rx = Ok (payload, rx')
    /\ _packets rx' = []
    /\ errorCount rx' = 0.
Proof.
  intros Hb Hlen Hw.
  assert (Hrx : drain clock 0 (init w true true) (wire payload)
                = mkRS485 w true true [payload] 0 (Some (clock 0%nat))
                          payload waiting None).
  { rewrite drain_wire by assumption. reflexivity. }
  exists (mkPort (wire payload) []).
  exists (mkRS485 w true true [payload] 0 (Some (clock 0%nat)) payload waiting None).
  exists (mkRS485 w true true [] 0 (Some (clock 0%nat)) payload waiting None).
  split; [apply (sendMsg_written sender payload (mkPort [] []) Hw) | ].
  split; [ | repeat split].
  unfold update. cbn [init reset _callbackAvailable _callbackRead negb
                      waiting_bytes written].
  cbn [init reset] in Hrx. rewrite Hrx. reflexivity.
Qed.

Lemma round_trip_witness :
  exists line rx rx',
    sendMsg (init true false false) [0; 72; 255] (mkPort [] []) = Ok line
    /\ update (fun _ => 0) (init false true true) (mkPort [] (written line))
       = Ok (true, rx, mkPort [] [])
    /\ _packets rx = [[0; 72; 255]]
    /\ errorCount rx = 0
    /\ getPacket rx = Ok ([0; 72; 255], rx')
    /\ _packets rx' = []
    /\ errorCount rx' = 0.
Proof.
  refine (round_trip (fun _ => 0) (init true false false) false [0; 72; 255]
            _ _ eq_refl).
  - repeat constructor; unfold is_byte; lia.
  - cbn [length]. lia.
Defined.

(** ** The checksum step *)

Lemma step_crc_match (now : Time) (r : RS485) (first byte : Z) :
  state r = receiveCrc ->
  _firstNibble r = Some first ->
  byte <> _STX -> byte <> _ETX ->
  malformed byte = false ->
  Z.lor (Z.shiftr byte 4) (Z.shiftl first 4) = _crc8 (_data r) ->
  step now r byte =
    mkRS485 (_callbackWrite r) (_callbackAvailable r) (_callbackRead r)
            (_packets r ++ [_data r]) (errorCount r) (_startTime r)
            (_data r) waiting None.
Proof.
  intros Hs Hf H2 H3 Hm Hcrc. unfold step.
  apply Z.eqb_neq in H2, H3. rewrite H2, H3, Hm, Hf, Hs. fields.
  rewrite Hs, Hcrc, Z.eqb_refl. reflexivity.
Qed.

(** C6, as the code has it: in [receiveCrc], when the second checksum nibble
    completes a byte equal to the CRC-8 of the payload buffer, the buffer's
    contents are appended to the packet queue, the pending-nibble slot is
    empty, the state is [waiting] and the error counter is unchanged; the
    payload buffer itself is left as it is (the next start marker or [reset]
    clears it). *)
Theorem crc_match_enqueues (now : Time) (r : RS485) (first byte : Z) :
  state r = receiveCrc ->
  _firstNibble r = Some first ->
  byte <> _STX -> byte <> _ETX ->
  malformed byte = false ->
  Z.lor (Z.shiftr byte 4) (Z.shiftl first 4) = _crc8 (_data r) ->
  _packets (step now r byte) = _packets r ++ [_data r]
  /\ _firstNibble (step now r byte) = None
  /\ state (step now r byte) = waiting
  /\ errorCount (step now r byte) = errorCount r
  /\ _startTime (step now r byte) = _startTime r
  /\ _data (step now r byte) = _data r.
Proof.
  intros Hs Hf H2 H3 Hm Hcrc.
  rewrite (step_crc_match now r first byte) by assumption.
  fields. repeat split.
Qed.

Lemma crc_match_enqueues_witness :
  _packets (step 0 crc_pending 75) = [[72]]
  /\ _firstNibble (step 0 crc_pending 75) = None
  /\ state (step 0 crc_pending 75) = waiting
  /\ errorCount (step 0 crc_pending 75) = 0
  /\ _startTime (step 0 crc_pending 75) = Some 0
  /\ _data (step 0 crc_pending 75) = [72].
Proof.
  refine (crc_match_enqueues 0 crc_pending 8 75 eq_refl eq_refl _ _ eq_refl eq_refl);
    unfold _STX, _ETX; lia.
Defined.

(** C6 as stated fails: the receiver below is in [receiveCrc] with the first
    checksum nibble pending, the incoming byte completes the matching
    checksum, the packet is enqueued, and the payload buffer still holds the
    payload afterwards. *)
Lemma crc_match_keeps_buffer :
  state crc_pending = receiveCrc
  /\ _firstNibble crc_pending = Some 8
  /\ malformed 75 = false
  /\ Z.lor (Z.shiftr 75 4) (Z.shiftl 8 4) = _crc8 (_data crc_pending)
  /\ _packets (step 0 crc_pending 75) = _packets crc_pending ++ [[72]]
  /\ _data (step 0 crc_pending 75) = [72]
  /\ _data (step 0 crc_pending 75) <> [].
Proof. repeat split. discriminate. Qed.

(** ** Resynchronisation *)

(** C7: a start marker processed while a packet is in progress adds exactly
    one to the error counter and discards the payload buffer and the pending
    nibble; whatever bytes follow, a well-formed packet after them is
    appended to the queue unchanged. *)
Theorem spurious_STX_resynchronises (clock : nat -> Time) (now : Time)
  (k : nat) (r : RS485) (rest payload : list Z) :
  state r <> waiting ->
  Forall is_byte payload ->
  (length payload <= 255)%nat ->
  errorCount (step now r _STX) = errorCount r + 1
  /\ _data (step now r _STX) = []
  /\ _firstNibble (step now r _STX) = None
  /\ state (step now r _STX) = receiveData
  /\ _packets (step now r _STX) = _packets r
  /\ _packets (drain clock k (step now r _STX) (rest ++ wire payload))
     = _packets (drain clock k (step now r _STX) rest) ++ [payload]
  /\ state (drain clock k (step now r _STX) (rest ++ wire payload)) = waiting.
Proof.
  intros Hs Hb Hlen. rewrite step_STX. fields.
  destruct (State_eqb_spec (state r) waiting) as [E | _]; [contradiction | ].
  repeat (split; [reflexivity | ]).
  rewrite drain_app, drain_wire by assumption. fields. split; reflexivity.
Qed.

Lemma spurious_STX_resynchronises_witness :
  errorCount (step 7 crc_pending _STX) = 1
  /\ _data (step 7 crc_pending _STX) = []
  /\ _firstNibble (step 7 crc_pending _STX) = None
  /\ state (step 7 crc_pending _STX) = receiveData
  /\ _packets (step 7 crc_pending _STX) = []
  /\ _packets (drain (fun _ => 0) 0 (step 7 crc_pending _STX) ([15] ++ wire [1; 2]))
     = _packets (drain (fun _ => 0) 0 (step 7 crc_pending _STX) [15]) ++ [[1; 2]]
  /\ state (drain (fun _ => 0) 0 (step 7 crc_pending _STX) ([15] ++ wire [1; 2]))
     = waiting.
Proof.
  refine (spurious_STX_resynchronises (fun _ => 0) 7 0 crc_pending [15] [1; 2] _ _ _).
  - discriminate.
  - repeat constructor; unfold is_byte; lia.
  - cbn [length]. lia.
Defined.

(** ** Invariants of the receiver *)

Lemma nibble_of_wellformed (byte : Z) :
  malformed byte = false -> 0 <= Z.shiftr byte 4 < 16.
Proof.
  unfold malformed. rewrite negb_false_iff, Z.eqb_eq. intros ->.
  pose proof (low_nibble_range byte) as Hl.
  revert Hl. generalize (Z.land byte 15) as n. intros n Hn.
  assert (H : (fun n => (0 <=? Z.lxor n 15) && (Z.lxor n 15 <? 16)) n = true).
  { revert n Hn.
    apply (forall_nibbles (fun n => (0 <=? Z.lxor n 15) && (Z.lxor n 15 <? 16))).
    vm_compute. reflexivity. }
  cbv beta in H. lia.
Qed.

Lemma joined_nibbles_byte (first n : Z) :
  0 <= first < 16 -> 0 <= n < 16 -> is_byte (Z.lor n (Z.shiftl first 4)).
Proof.
  intros Hf Hn.
  assert (H : (fun f => forallb (fun n => (0 <=? Z.lor n (Z.shiftl f 4))
                                          && (Z.lor n (Z.shiftl f 4) <? 256))
                                (map Z.of_nat (seq 0 16))) first = true).
  { revert first Hf.
    apply (forall_nibbles
             (fun f => forallb (fun n => (0 <=? Z.lor n (Z.shiftl f 4))
                                         && (Z.lor n (Z.shiftl f 4) <? 256))
                               (map Z.of_nat (seq 0 16)))).
    vm_compute. reflexivity. }
  cbv beta in H. pose proof (forall_nibbles _ H n Hn) as H'.
  cbv beta in H'. unfold is_byte. lia.
Qed.

Lemma step_receiver_ok (now : Time) (r : RS485) (byte : Z) :
  receiver_ok r -> receiver_ok (step now r byte).
Proof.
  unfold receiver_ok. intros (Hlen & Hbytes & Hnib).
  step_cases; (split; [ | split]);
    try exact Hlen; try exact Hbytes; try exact Hnib;
    try (cbn [length]; lia); try (constructor; fail);
    try (intros ? ?; congruence);
    try (intros f Hf; injection Hf as <-; apply nibble_of_wellformed; assumption).
  - rewrite length_app. cbn [length]. unfold _MAX_LENGTH in *. lia.
  - apply Forall_app. split; [exact Hbytes | ]. constructor; [ | constructor].
    apply joined_nibbles_byte.
    + apply Hnib. reflexivity.
    + apply nibble_of_wellformed. assumption.
Qed.

Lemma drain_receiver_ok (clock : nat -> Time) (bytes : list Z) :
  forall (k : nat) (r : RS485),
    receiver_ok r -> receiver_ok (drain clock k r bytes).
Proof.
  induction bytes as [ | b bytes IH]; intros k r Hr.
  - exact Hr.
  - cbn [drain]. apply IH. apply step_receiver_ok. exact Hr.
Qed.

Lemma after_receiver_ok (c : Call) (r : RS485) (p : Port) :
  receiver_ok r -> receiver_ok (fst (after c (r, p))).
Proof.
  intros Hr. destruct c; cbn [after fst]; try exact Hr.
  - unfold receiver_ok. fields. cbn [length].
    split; [lia | split; [constructor | discriminate]].
  - destruct (sendMsg r data p); exact Hr.
  - unfold update.
    destruct (negb (_callbackAvailable r)); [exact Hr | ].
    destruct (negb (_callbackRead r)); [exact Hr | ].
    cbn [fst]. apply drain_receiver_ok. exact Hr.
  - unfold getPacket. destruct (_packets r); [exact Hr | ]. exact Hr.
Qed.

Lemma reachable_receiver_ok (r : RS485) : reachable r -> receiver_ok r.
Proof.
  induction 1 as [w a rd | c r p _ IH].
  - unfold receiver_ok. fields. cbn [length].
    split; [lia | split; [constructor | discriminate]].
  - apply after_receiver_ok. exact IH.
Qed.

(** ** Overflow *)

Lemma drain_overflow (clock : nat -> Time) (k : nat) (r : RS485)
  (payload : list Z) :
  Forall is_byte payload ->
  (255 < length payload)%nat ->
  drain clock k r (_STX :: flat_map enc payload) =
    mkRS485 (_callbackWrite r) (_callbackAvailable r) (_callbackRead r)
            (_packets r)
            (errorCount (step (clock k) r _STX) + 1)
            (Some (clock k)) [] waiting None.
Proof.
  intros Hb Hlen.
  rewrite <- (firstn_skipn 255 payload) in Hb |- * at 1.
  apply Forall_app in Hb. destruct Hb as [Hfit Hrest].
  assert (Hfirst : length (firstn 255 payload) = 255%nat)
    by (rewrite length_firstn; lia).
  destruct (skipn 255 payload) as [ | b over] eqn:Hskip.
  { apply (f_equal (@length Z)) in Hskip. rewrite length_skipn in Hskip.
    cbn [length] in Hskip. lia. }
  inversion Hrest as [ | ? ? Hb0 Hover]; subst.
  rewrite flat_map_app. cbn [flat_map drain].
  rewrite step_STX, drain_app, drain_payload; fields;
    [ | exact Hfit | reflexivity | reflexivity | cbn [length]; lia].
  rewrite drain_app, drain_enc_data; fields; [ | exact Hb0 | reflexivity | reflexivity].
  cbn [app]. rewrite Hfirst. cbn [Z.of_nat Pos.of_succ_nat].
  replace (Z.of_nat 255 <? _MAX_LENGTH) with false by reflexivity.
  rewrite drain_waiting; fields;
    [reflexivity | reflexivity | apply flat_map_enc_not_markers; exact Hover].
Qed.

(** C8: in every reachable receiver state the payload buffer holds at most
    255 bytes; a start marker followed by the wire bytes of more than 255
    data bytes (no end marker yet) costs one error for the overflow, leaves
    the queue as it was and the receiver [waiting] with empty buffers. *)
Theorem buffer_bounded_overflow_resets :
  (forall r, reachable r -> (length (_data r) <= 255)%nat)
  /\ (forall (clock : nat -> Time) (k : nat) (r : RS485) (payload : list Z),
        Forall is_byte payload ->
        (255 < length payload)%nat ->
        errorCount (drain clock k r (_STX :: flat_map enc payload))
        = errorCount (step (clock k) r _STX) + 1
        /\ _packets (drain clock k r (_STX :: flat_map enc payload)) = _packets r
        /\ _data (drain clock k r (_STX :: flat_map enc payload)) = []
        /\ _firstNibble (drain clock k r (_STX :: flat_map enc payload)) = None
        /\ state (drain clock k r (_STX :: flat_map enc payload)) = waiting).
Proof.
  split.
  - intros r Hr. apply reachable_receiver_ok in Hr. apply Hr.
  - intros clock k r payload Hb Hlen.
    rewrite drain_overflow by assumption. fields. repeat split.
Qed.

Lemma buffer_bounded_overflow_resets_witness :
  (length (_data crc_pending) <= 255)%nat
  /\ errorCount (drain (fun _ => 0) 0 (init true true true)
                   (_STX :: flat_map enc (repeat 65 256))) = 1
  /\ state (drain (fun _ => 0) 0 (init true true true)
              (_STX :: flat_map enc (repeat 65 256))) = waiting.
Proof.
  destruct buffer_bounded_overflow_resets as [Hbound Hover].
  split.
  - apply Hbound. unfold crc_pending.
    apply (reachable_after (call_update (fun _ => 0)) (init true true true)
             (mkPort [] [2; 75; 135; 3; 135])).
    constructor.
  - destruct (Hover (fun _ => 0) 0%nat (init true true true) (repeat 65 256))
      as (He & _ & _ & _ & Hs).
    + apply Forall_forall. intros x Hx. apply repeat_spec in Hx. subst x.
      unfold is_byte. lia.
    + rewrite repeat_length. lia.
    + split; [exact He | exact Hs].
Defined.

(** ** The error counter only grows *)

Lemma step_errorCount (now : Time) (r : RS485) (byte : Z) :
  errorCount r <= errorCount (step now r byte).
Proof. step_cases; lia. Qed.

Lemma drain_errorCount (clock : nat -> Time) (bytes : list Z) :
  forall (k : nat) (r : RS485), errorCount r <= errorCount (drain clock k r bytes).
Proof.
  induction bytes as [ | b bytes IH]; intros k r; cbn [drain].
  - lia.
  - pose proof (step_errorCount (clock k) r b).
    pose proof (IH (S k) (step (clock k) r b)). lia.
Qed.

Lemma after_errorCount (c : Call) (r : RS485) (p : Port) :
  errorCount r <= errorCount (fst (after c (r, p))).
Proof.
  destruct c; cbn [after fst]; fields; try lia.
  - destruct (sendMsg r data p); cbn [fst]; lia.
  - unfold update.
    destruct (negb (_callbackAvailable r)); [cbn [fst]; lia | ].
    destruct (negb (_callbackRead r)); cbn [fst]; [lia | ].
    apply drain_errorCount.
  - unfold getPacket. destruct (_packets r); cbn [fst]; fields; lia.
Qed.

(** C9: [reset] empties the payload buffer and the pending-nibble slot and
    sets the state to [waiting]; it leaves the error counter, the packet
    queue and the start time as they were.  No method call ever lowers the
    error counter; only construction sets it (to 0). *)
Theorem reset_frame_errorCount_monotone :
  (forall r,
      _data (reset r) = []
      /\ _firstNibble (reset r) = None
      /\ state (reset r) = waiting
      /\ errorCount (reset r) = errorCount r
      /\ _packets (reset r) = _packets r
      /\ _startTime (reset r) = _startTime r)
  /\ (forall (c : Call) (r : RS485) (p : Port),
         errorCount r <= errorCount (fst (after c (r, p))))
  /\ (forall (now : Time) (r : RS485) (byte : Z),
         errorCount r <= errorCount (step now r byte))
  /\ (forall w a rd, errorCount (init w a rd) = 0).
Proof.
  split; [ | split; [ | split]].
  - intros r. fields. repeat split.
  - exact after_errorCount.
  - exact step_errorCount.
  - reflexivity.
Qed.

(** ** An end marker before any start marker *)

(** C10: the stream ETX, 0x0F, 0x0F holds no start marker, yet a freshly
    constructed receiver leaves [waiting] on its first byte and [update]
    appends the empty packet to the queue. *)
Theorem ETX_first_enqueues_empty_packet :
  exists bytes : list Z,
    bytes = [_ETX; 0x0F; 0x0F]
    /\ ~ In _STX bytes
    /\ forall (clock : nat -> Time) (w : bool),
        state (init w true true) = waiting
        /\ state (drain clock 0 (init w true true) [_ETX]) = receiveCrc
        /\ exists rx,
            update clock (init w true true) (mkPort [] bytes)
            = Ok (true, rx, mkPort [] [])
            /\ _packets rx = [[]]
            /\ errorCount rx = 0.
Proof.
  exists [_ETX; 0x0F; 0x0F]. split; [reflexivity | ]. split.
  - cbn [In]. unfold _STX, _ETX. intros [H | [H | [H | H]]];
      try discriminate H; exact H.
  - intros clock w. split; [reflexivity | ]. split; [reflexivity | ].
    eexists. split; [reflexivity | ]. split; reflexivity.
Qed.

(** ** Packets in progress *)

(** While the bookkeeping says a packet is open, the state is not
    [waiting]. *)
Lemma open_step (now : Time) (r : RS485) (byte : Z) (open : bool) :
  (open = true -> state r <> waiting) ->
  open_after now r byte open = true -> state (step now r byte) <> waiting.
Proof.
  intros Hinv. unfold open_after.
  destruct (byte =? _STX) eqn:E2.
  - intros _. apply Z.eqb_eq in E2. subst byte. rewrite step_STX. discriminate.
  - revert E2. step_cases; intros E2 Ho; try discriminate;
      rewrite ?length_app in Ho; cbn [length] in Ho;
      try (apply Hinv in Ho); try congruence;
      try (destruct (State_eqb_spec (state r) waiting); congruence);
      try (exfalso; lia).
  match goal with
  | H : (_ <? length (_ ++ _))%nat = false |- _ =>
      rewrite length_app in H; cbn [length] in H; apply Nat.ltb_ge in H
  end.
  exfalso. lia.
Qed.

Lemma open_implies_started (clock : nat -> Time) (bytes : list Z) :
  forall (k : nat) (r : RS485) (open : bool),
    (open = true -> state r <> waiting) ->
    snd (drain_open clock k r open bytes) = true ->
    state (fst (drain_open clock k r open bytes)) <> waiting.
Proof.
  induction bytes as [ | b bytes IH]; intros k r open Hinv; cbn [drain_open].
  - exact Hinv.
  - apply IH. apply open_step. exact Hinv.
Qed.

Lemma drain_open_fst (clock : nat -> Time) (bytes : list Z) :
  forall (k : nat) (r : RS485) (open : bool),
    fst (drain_open clock k r open bytes) = drain clock k r bytes.
Proof.
  induction bytes as [ | b bytes IH]; intros k r open; cbn [drain_open drain].
  - reflexivity.
  - apply IH.
Qed.

(** C5 at its failing input: an end marker is the first byte a fresh
    receiver processes.  No packet was started, no error was counted and
    nothing was enqueued, yet the state is [receiveCrc] and
    [isPacketStarted] answers true. *)
Theorem ETX_while_waiting_reports_started (clock : nat -> Time) (w a rd : bool) :
  drain_open clock 0 (init w a rd) false [_ETX]
  = (with_state receiveCrc (init w a rd), false)
  /\ state (drain clock 0 (init w a rd) [_ETX]) <> waiting
  /\ isPacketStarted (drain clock 0 (init w a rd) [_ETX]) = true
  /\ errorCount (drain clock 0 (init w a rd) [_ETX]) = 0
  /\ _packets (drain clock 0 (init w a rd) [_ETX]) = [].
Proof.
  split; [reflexivity | ]. split; [discriminate | ]. repeat split.
Qed.

(** * Further properties of the code *)

(** ** Configuration errors *)

(** X1: [sendMsg] raises "No fWrite supplied." exactly when no write
    callback was given; [update] raises "No fAvailable supplied." when
    [fAvailable] is missing, whatever [fRead] is, "No fRead supplied." when
    only [fRead] is missing, and otherwise returns: it has read every
    waiting byte, written nothing, and its result is [available] of the
    receiver it leaves. *)
Theorem missing_callbacks_raise (clock : nat -> Time) (r : RS485)
  (data : list Z) (p : Port) :
  (sendMsg r data p = Raise (RuntimeError "No fWrite supplied.")
   <-> _callbackWrite r = false)
  /\ (_callbackAvailable r = false ->
      update clock r p = Raise (RuntimeError "No fAvailable supplied."))
  /\ (_callbackAvailable r = true -> _callbackRead r = false ->
      update clock r p = Raise (RuntimeError "No fRead supplied."))
  /\ (_callbackAvailable r = true -> _callbackRead r = true ->
      exists r',
        update clock r p = Ok (available r', r', mkPort (written p) [])
        /\ r' = drain clock 0 r (waiting_bytes p)).
Proof.
  split; [ | split; [ | split]].
  - unfold sendMsg. destruct (_callbackWrite r); split; intros H;
      try discriminate H; reflexivity.
  - intros Ha. unfold update. rewrite Ha. reflexivity.
  - intros Ha Hr. unfold update. rewrite Ha, Hr. reflexivity.
  - intros Ha Hr. unfold update. rewrite Ha, Hr. cbn [negb].
    eexists. split; reflexivity.
Qed.

Lemma missing_callbacks_raise_witness :
  update (fun _ => 0) (init true false false) (mkPort [] [2])
  = Raise (RuntimeError "No fAvailable supplied.")
  /\ update (fun _ => 0) (init true true false) (mkPort [] [2])
     = Raise (RuntimeError "No fRead supplied.").
Proof.
  destruct (missing_callbacks_raise (fun _ => 0) (init true false false) []
              (mkPort [] [2])) as (_ & Ha & _ & _).
  destruct (missing_callbacks_raise (fun _ => 0) (init true true false) []
              (mkPort [] [2])) as (_ & _ & Hr & _).
  split; [apply Ha | apply Hr]; reflexivity.
Defined.

(** ** What goes on the wire *)

Lemma alphabet_bytes (w : Z) : In w alphabet -> is_byte w.
Proof.
  intros H. apply alphabet_is_image in H. destruct H as [Hn <-].
  apply complemented_facts. exact Hn.
Qed.

Lemma enc_in_alphabet (b : Z) : is_byte b -> Forall (fun w => In w alphabet) (enc b).
Proof.
  intros Hb. unfold enc.
  constructor; [ | constructor; [ | constructor]];
    apply complemented_in_alphabet.
  - apply high_nibble_range. exact Hb.
  - apply low_nibble_range.
Qed.

Lemma flat_map_enc_in_alphabet (payload : list Z) :
  Forall is_byte payload -> Forall (fun w => In w alphabet) (flat_map enc payload).
Proof.
  induction 1 as [ | b payload Hb _ IH]; cbn [flat_map].
  - constructor.
  - apply Forall_app. split; [apply enc_in_alphabet; exact Hb | exact IH].
Qed.

Lemma count_occ_absent (x : Z) (l : list Z) :
  Forall (fun w => w <> x) l -> count_occ Z.eq_dec l x = 0%nat.
Proof.
  intros H. apply count_occ_not_In. intros Hin.
  rewrite Forall_forall in H. exact (H x Hin eq_refl).
Qed.

(** X2: for a payload of bytes, what [sendMsg] writes starts with the start
    marker, every later byte but one is one of the sixteen wire bytes, the
    start marker and the end marker each occur exactly once, and every
    byte written is in 0..255 (so [bytes([aByte])] in [SerialWrapper._write]
    is always defined). *)
Theorem sendMsg_frame_is_self_delimiting (r : RS485) (payload : list Z)
  (p : Port) :
  _callbackWrite r = true ->
  Forall is_byte payload ->
  exists body crc,
    sendMsg r payload p
    = Ok (mkPort (written p ++ _STX :: body ++ _ETX :: crc) (waiting_bytes p))
    /\ Forall (fun w => In w alphabet) body
    /\ Forall (fun w => In w alphabet) crc
    /\ length body = (2 * length payload)%nat
    /\ length crc = 2%nat
    /\ count_occ Z.eq_dec (_STX :: body ++ _ETX :: crc) _STX = 1%nat
    /\ count_occ Z.eq_dec (_STX :: body ++ _ETX :: crc) _ETX = 1%nat
    /\ Forall is_byte (_STX :: body ++ _ETX :: crc).
Proof.
  intros Hw Hb.
  exists (flat_map enc payload), (enc (_crc8 payload)).
  pose proof (flat_map_enc_in_alphabet payload Hb) as Hbody.
  pose proof (enc_in_alphabet _ (crc8_byte_range payload)) as Hcrc.
  pose proof (flat_map_enc_not_markers payload Hb) as Hbm.
  pose proof (enc_not_markers _ (crc8_byte_range payload)) as Hcm.
  split; [rewrite (sendMsg_written r payload p Hw); reflexivity | ].
  split; [exact Hbody | ]. split; [exact Hcrc | ].
  split; [apply length_flat_map_enc | ]. split; [reflexivity | ].
  assert (Habs2 : forall l, Forall (fun w => w <> _STX /\ w <> _ETX) l ->
                            count_occ Z.eq_dec l _STX = 0%nat).
  { intros l Hl. apply count_occ_absent. eapply Forall_impl; [ | exact Hl].
    cbv beta. tauto. }
  assert (Habs3 : forall l, Forall (fun w => w <> _STX /\ w <> _ETX) l ->
                            count_occ Z.eq_dec l _ETX = 0%nat).
  { intros l Hl. apply count_occ_absent. eapply Forall_impl; [ | exact Hl].
    cbv beta. tauto. }
  split; [ | split].
  - rewrite count_occ_cons_eq by reflexivity.
    rewrite count_occ_app, count_occ_cons_neq by (unfold _ETX, _STX; lia).
    rewrite !Habs2 by assumption. reflexivity.
  - rewrite count_occ_cons_neq by (unfold _ETX, _STX; lia).
    rewrite count_occ_app, count_occ_cons_eq by reflexivity.
    rewrite !Habs3 by assumption. reflexivity.
  - constructor; [unfold is_byte, _STX; lia | ].
    apply Forall_app. split.
    + eapply Forall_impl; [ | exact Hbody]. exact alphabet_bytes.
    + constructor; [unfold is_byte, _ETX; lia | ].
      eapply Forall_impl; [ | exact Hcrc]. exact alphabet_bytes.
Qed.

Lemma sendMsg_frame_is_self_delimiting_witness :
  exists body crc,
    sendMsg (init true false false) [2; 3] (mkPort [] [])
    = Ok (mkPort ([] ++ _STX :: body ++ _ETX :: crc) [])
    /\ Forall (fun w => In w alphabet) body
    /\ Forall (fun w => In w alphabet) crc
    /\ length body = 4%nat
    /\ length crc = 2%nat
    /\ count_occ Z.eq_dec (_STX :: body ++ _ETX :: crc) _STX = 1%nat
    /\ count_occ Z.eq_dec (_STX :: body ++ _ETX :: crc) _ETX = 1%nat
    /\ Forall is_byte (_STX :: body ++ _ETX :: crc).
Proof.
  refine (sendMsg_frame_is_self_delimiting (init true false false) [2; 3]
            (mkPort [] []) eq_refl _).
  repeat constructor; unfold is_byte; lia.
Defined.

(** ** Several packets in one stream *)

Lemma sendMsgs_written (r : RS485) (msgs : list (list Z)) :
  _callbackWrite r = true ->
  forall p,
    sendMsgs r msgs p
    = Ok (mkPort (written p ++ concat (map wire msgs)) (waiting_bytes p)).
Proof.
  intros Hw. induction msgs as [ | data msgs IH]; intros p.
  - cbn. rewrite app_nil_r. destruct p; reflexivity.
  - cbn [sendMsgs map concat]. rewrite (sendMsg_written r data p Hw), IH.
    cbn [written waiting_bytes]. rewrite <- app_assoc. reflexivity.
Qed.

Lemma drain_wires (clock : nat -> Time) (msgs : list (list Z)) :
  Forall packet_ok msgs ->
  forall (k : nat) (r : RS485),
    state r = waiting ->
    _packets (drain clock k r (concat (map wire msgs))) = _packets r ++ msgs
    /\ errorCount (drain clock k r (concat (map wire msgs))) = errorCount r
    /\ state (drain clock k r (concat (map wire msgs))) = waiting
    /\ _callbackWrite (drain clock k r (concat (map wire msgs))) = _callbackWrite r
    /\ _callbackAvailable (drain clock k r (concat (map wire msgs)))
       = _callbackAvailable r
    /\ _callbackRead (drain clock k r (concat (map wire msgs))) = _callbackRead r.
Proof.
  induction 1 as [ | data msgs [Hb Hlen] _ IH]; intros k r Hs.
  - cbn [map concat drain]. rewrite app_nil_r. repeat split. exact Hs.
  - cbn [map concat]. rewrite drain_app, drain_wire by assumption.
    rewrite Hs. cbn [State_eqb].
    match goal with
    | |- context [drain clock ?k' ?r' _] =>
        destruct (IH k' r' eq_refl) as (Hp & He & Hst & Hcw & Hca & Hcr)
    end.
    rewrite Hp, He, Hst, Hcw, Hca, Hcr. fields.
    rewrite <- app_assoc. repeat split.
Qed.

Lemma getPackets_all (queue : list (list Z)) :
  forall r,
    _packets r = queue ->
    getPackets (length queue) r
    = Ok (queue,
          mkRS485 (_callbackWrite r) (_callbackAvailable r) (_callbackRead r)
                  [] (errorCount r) (_startTime r)
                  (_data r) (state r) (_firstNibble r)).
Proof.
  induction queue as [ | pkt queue IH]; intros r Hq.
  - cbn [length getPackets]. destruct r; fields; subst. reflexivity.
  - cbn [length getPackets]. unfold getPacket. rewrite Hq.
    rewrite IH by reflexivity. fields. reflexivity.
Qed.

(** X3: messages framed one after the other by [sendMsgs] and taken by a
    freshly constructed receiver in one [update] are queued in the order
    sent, with no error counted; [update] answers whether there was any;
    [getPacket] then hands them out oldest first, after which [available]
    is false and one more [getPacket] raises [IndexError]. *)
Theorem packets_delivered_in_order (clock : nat -> Time) (sender : RS485)
  (w : bool) (msgs : list (list Z)) :
  _callbackWrite sender = true ->
  Forall packet_ok msgs ->
  exists line rx rx',
    sendMsgs sender msgs (mkPort [] []) = Ok line
    /\ update clock (init w true true) (mkPort [] (written line))
       = Ok (negb (Nat.eqb (length msgs) 0), rx, mkPort [] [])
    /\ _packets rx = msgs
    /\ errorCount rx = 0
    /\ getPackets (length msgs) rx = Ok (msgs, rx')
    /\ available rx' = false
    /\ getPacket rx' = Raise IndexError.
Proof.
  intros Hw Hok.
  destruct (drain_wires clock msgs Hok 0%nat (init w true true) eq_refl)
    as (Hp & He & _ & _ & Hca & Hcr).
  cbn [init reset _packets errorCount app _callbackAvailable _callbackRead]
    in Hp, He, Hca, Hcr.
  eexists. exists (drain clock 0 (init w true true) (concat (map wire msgs))).
  eexists.
  split; [apply (sendMsgs_written sender msgs Hw) | ].
  cbn [written waiting_bytes app].
  split.
  { unfold update. cbn [init reset _callbackAvailable _callbackRead negb
                        waiting_bytes written].
    unfold available. cbn [init reset] in Hp |- *. rewrite Hp. reflexivity. }
  split; [exact Hp | ]. split; [exact He | ].
  split.
  { rewrite <- Hp at 1. rewrite (getPackets_all (_packets _) _ eq_refl).
    rewrite Hp. reflexivity. }
  split; reflexivity.
Qed.

Lemma packets_delivered_in_order_witness :
  exists line rx rx',
    sendMsgs (init true false false) [[1]; []; [2; 3]] (mkPort [] []) = Ok line
    /\ update (fun _ => 0) (init false true true) (mkPort [] (written line))
       = Ok (true, rx, mkPort [] [])
    /\ _packets rx = [[1]; []; [2; 3]]
    /\ errorCount rx = 0
    /\ getPackets 3 rx = Ok ([[1]; []; [2; 3]], rx')
    /\ available rx' = false
    /\ getPacket rx' = Raise IndexError.
Proof.
  refine (packets_delivered_in_order (fun _ => 0) (init true false false) false
            [[1]; []; [2; 3]] eq_refl _).
  unfold packet_ok, is_byte. repeat constructor; cbn [length]; lia.
Defined.

(** ** Noise between packets *)

(** X4: a receiver that is [waiting] drops every byte that is neither
    marker without counting an error; a well-formed packet after such noise
    is queued as if the noise had not been there. *)
Theorem noise_while_waiting_is_dropped (clock : nat -> Time) (k : nat)
  (r : RS485) (noise payload : list Z) :
  state r = waiting ->
  Forall (fun b => b <> _STX /\ b <> _ETX) noise ->
  packet_ok payload ->
  drain clock k r noise = r
  /\ _packets (drain clock k r (noise ++ wire payload)) = _packets r ++ [payload]
  /\ errorCount (drain clock k r (noise ++ wire payload)) = errorCount r
  /\ state (drain clock k r (noise ++ wire payload)) = waiting.
Proof.
  intros Hs Hn [Hb Hlen].
  rewrite drain_app, (drain_waiting clock k r noise Hs Hn).
  rewrite drain_wire by assumption. rewrite Hs. fields. repeat split.
Qed.

Lemma noise_while_waiting_is_dropped_witness :
  drain (fun _ => 0) 0 (init true true true) [0; 255; 15; 1000; -7]
  = init true true true
  /\ _packets (drain (fun _ => 0) 0 (init true true true)
                 ([0; 255; 15; 1000; -7] ++ wire [9])) = [[9]]
  /\ errorCount (drain (fun _ => 0) 0 (init true true true)
                   ([0; 255; 15; 1000; -7] ++ wire [9])) = 0
  /\ state (drain (fun _ => 0) 0 (init true true true)
              ([0; 255; 15; 1000; -7] ++ wire [9])) = waiting.
Proof.
  refine (noise_while_waiting_is_dropped (fun _ => 0) 0 (init true true true)
            [0; 255; 15; 1000; -7] [9] eq_refl _ _).
  - repeat constructor; unfold _STX, _ETX; lia.
  - unfold packet_ok, is_byte. repeat constructor; cbn [length]; lia.
Defined.

(** ** Errors *)

(** X5: one byte costs at most one error.  When a byte other than the start
    marker is counted as an error, the receiver has gone back to [waiting]
    with an empty payload buffer and no pending nibble, and the packet queue
    and the start time are untouched. *)
Theorem counted_error_resets (now : Time) (r : RS485) (byte : Z) :
  byte <> _STX ->
  errorCount (step now r byte) <> errorCount r ->
  errorCount (step now r byte) = errorCount r + 1
  /\ state (step now r byte) = waiting
  /\ _data (step now r byte) = []
  /\ _firstNibble (step now r byte) = None
  /\ _packets (step now r byte) = _packets r
  /\ _startTime (step now r byte) = _startTime r.
Proof.
  intros H2. apply Z.eqb_neq in H2. unfold step. rewrite H2.
  step_cases; intros Hne; try (exfalso; apply Hne; reflexivity);
    repeat split.
Qed.

Lemma counted_error_resets_witness :
  errorCount (step 0 crc_pending 16) = 1
  /\ state (step 0 crc_pending 16) = waiting
  /\ _data (step 0 crc_pending 16) = []
  /\ _firstNibble (step 0 crc_pending 16) = None
  /\ _packets (step 0 crc_pending 16) = []
  /\ _startTime (step 0 crc_pending 16) = Some 0.
Proof.
  refine (counted_error_resets 0 crc_pending 16 _ _).
  - unfold _STX. lia.
  - discriminate.
Defined.

Lemma step_errorCount_upper (now : Time) (r : RS485) (byte : Z) :
  errorCount (step now r byte) <= errorCount r + 1.
Proof. step_cases; lia. Qed.

(** X6: processing a stream raises the error counter by at most the number
    of bytes processed, and never lowers it. *)
Theorem errorCount_bounded_by_bytes (clock : nat -> Time) (bytes : list Z)
  (k : nat) (r : RS485) :
  errorCount r <= errorCount (drain clock k r bytes)
  /\ errorCount (drain clock k r bytes) <= errorCount r + Z.of_nat (length bytes).
Proof.
  split; [apply drain_errorCount | ].
  revert k r. induction bytes as [ | b bytes IH]; intros k r.
  - cbn [drain length]. lia.
  - cbn [drain length].
    pose proof (step_errorCount_upper (clock k) r b).
    pose proof (IH (S k) (step (clock k) r b)). lia.
Qed.

(** ** What reaches the queue *)

(** X7: one byte changes the packet queue only by appending the payload
    buffer, and only when the receiver is in [receiveCrc], a nibble is
    pending, and the byte assembled from the two nibbles equals the CRC-8 of
    the buffer; the error counter is then unchanged. *)
Theorem enqueue_needs_matching_crc (now : Time) (r : RS485) (byte : Z) :
  _packets (step now r byte) <> _packets r ->
  state r = receiveCrc
  /\ malformed byte = false
  /\ (exists first,
        _firstNibble r = Some first
        /\ _crc8 (_data r) = Z.lor (Z.shiftr byte 4) (Z.shiftl first 4))
  /\ _packets (step now r byte) = _packets r ++ [_data r]
  /\ errorCount (step now r byte) = errorCount r.
Proof.
  step_cases; intros Hne; try (exfalso; apply Hne; reflexivity).
  rewrite negb_false_iff, Z.eqb_eq in *.
  split; [destruct (state r); cbn [State_eqb] in *; congruence | ].
  split; [reflexivity | ].
  split; [eexists; split; [reflexivity | assumption] | ].
  split; reflexivity.
Qed.

Lemma enqueue_needs_matching_crc_witness :
  state crc_pending = receiveCrc
  /\ malformed 75 = false
  /\ (exists first,
        _firstNibble crc_pending = Some first
        /\ _crc8 (_data crc_pending) = Z.lor (Z.shiftr 75 4) (Z.shiftl first 4))
  /\ _packets (step 0 crc_pending 75) = _packets crc_pending ++ [_data crc_pending]
  /\ errorCount (step 0 crc_pending 75) = errorCount crc_pending.
Proof.
  refine (enqueue_needs_matching_crc 0 crc_pending 75 _).
  discriminate.
Defined.

Lemma step_packets_grow (now : Time) (r : RS485) (byte : Z) :
  exists added, _packets (step now r byte) = _packets r ++ added
                /\ (added = [] \/ added = [_data r]).
Proof.
  step_cases;
    try (exists []; rewrite app_nil_r; split; [reflexivity | left; reflexivity]).
  exists [_data r]. split; [reflexivity | right; reflexivity].
Qed.

Lemma step_packets_ok (now : Time) (r : RS485) (byte : Z) :
  receiver_ok r -> Forall packet_ok (_packets r) ->
  Forall packet_ok (_packets (step now r byte)).
Proof.
  intros (Hlen & Hbytes & _) Hq.
  destruct (step_packets_grow now r byte) as (added & -> & [-> | ->]).
  - rewrite app_nil_r. exact Hq.
  - apply Forall_app. split; [exact Hq | ].
    constructor; [split; assumption | constructor].
Qed.

Lemma drain_packets (clock : nat -> Time) (bytes : list Z) :
  forall (k : nat) (r : RS485),
    receiver_ok r -> Forall packet_ok (_packets r) ->
    (exists added, _packets (drain clock k r bytes) = _packets r ++ added)
    /\ Forall packet_ok (_packets (drain clock k r bytes)).
Proof.
  induction bytes as [ | b bytes IH]; intros k r Hr Hq; cbn [drain].
  - split; [exists []; rewrite app_nil_r; reflexivity | exact Hq].
  - destruct (IH (S k) (step (clock k) r b)
                (step_receiver_ok _ _ _ Hr) (step_packets_ok _ _ _ Hr Hq))
      as [(added & Ha) Hok].
    split; [ | exact Hok].
    destruct (step_packets_grow (clock k) r b) as (a0 & Ha0 & _).
    exists (a0 ++ added). rewrite Ha, Ha0, app_assoc. reflexivity.
Qed.

Lemma after_packets_ok (c : Call) (r : RS485) (p : Port) :
  receiver_ok r -> Forall packet_ok (_packets r) ->
  Forall packet_ok (_packets (fst (after c (r, p)))).
Proof.
  intros Hr Hq. destruct c; cbn [after fst]; fields; try exact Hq.
  - destruct (sendMsg r data p); exact Hq.
  - unfold update.
    destruct (negb (_callbackAvailable r)); [exact Hq | ].
    destruct (negb (_callbackRead r)); [exact Hq | ].
    cbn [fst]. apply drain_packets; assumption.
  - unfold getPacket. destruct (_packets r) as [ | pkt rest] eqn:E;
      cbn [fst]; fields; [rewrite E; exact Hq | ].
    inversion Hq; assumption.
Qed.

(** X8: in every reachable receiver state each queued packet is a sequence
    of at most 255 bytes, each in 0..255; and a pending nibble is in
    0..15, so no value outside 0..255 is ever appended to the payload
    buffer. *)
Theorem queued_packets_are_payloads (r : RS485) :
  reachable r ->
  Forall packet_ok (_packets r)
  /\ Forall is_byte (_data r)
  /\ (forall first, _firstNibble r = Some first -> 0 <= first < 16).
Proof.
  intros Hr. split; [ | apply (reachable_receiver_ok r Hr)].
  induction Hr as [w a rd | c r p Hr IH].
  - constructor.
  - apply after_packets_ok; [apply reachable_receiver_ok; exact Hr | exact IH].
Qed.

Lemma queued_packets_are_payloads_witness :
  Forall packet_ok
    (_packets (fst (after (call_update (fun _ => 0))
                      (init true true true, mkPort [] (wire [72])))))
  /\ Forall is_byte
       (_data (fst (after (call_update (fun _ => 0))
                      (init true true true, mkPort [] (wire [72])))))
  /\ (forall first,
        _firstNibble (fst (after (call_update (fun _ => 0))
                             (init true true true, mkPort [] (wire [72]))))
        = Some first ->
        0 <= first < 16).
Proof.
  apply queued_packets_are_payloads.
  apply reachable_after. apply reachable_init.
Defined.

(** X9: [update] never removes or reorders queued packets: the queue after
    it is the queue before it followed by the packets completed during the
    call; [getPacket] removes exactly the oldest one and changes nothing
    else. *)
Theorem queue_grows_at_the_end (clock : nat -> Time) (r : RS485) (p : Port) :
  (exists added,
      _packets (fst (after (call_update clock) (r, p))) = _packets r ++ added)
  /\ (forall pkt rest,
         _packets r = pkt :: rest ->
         getPacket r
         = Ok (pkt,
               mkRS485 (_callbackWrite r) (_callbackAvailable r) (_callbackRead r)
                       rest (errorCount r) (_startTime r)
                       (_data r) (state r) (_firstNibble r)))
  /\ (_packets r = [] -> getPacket r = Raise IndexError /\ available r = false).
Proof.
  split; [ | split].
  - cbn [after]. unfold update.
    destruct (negb (_callbackAvailable r));
      [exists []; cbn [fst]; rewrite app_nil_r; reflexivity | ].
    destruct (negb (_callbackRead r));
      [exists []; cbn [fst]; rewrite app_nil_r; reflexivity | ].
    cbn [fst]. generalize (waiting_bytes p) as bytes. generalize 0%nat as k.
    intros k bytes. revert k r.
    induction bytes as [ | b bytes IH]; intros k r; cbn [drain].
    + exists []. rewrite app_nil_r. reflexivity.
    + destruct (IH (S k) (step (clock k) r b)) as (added & Ha).
      destruct (step_packets_grow (clock k) r b) as (a0 & Ha0 & _).
      exists (a0 ++ added). rewrite Ha, Ha0, app_assoc. reflexivity.
  - intros pkt rest Hq. unfold getPacket. rewrite Hq. reflexivity.
  - intros Hq. unfold getPacket, available. rewrite Hq. split; reflexivity.
Qed.

Lemma queue_grows_at_the_end_witness :
  getPacket (step 0 crc_pending 75)
  = Ok ([72], mkRS485 true true true [] 0 (Some 0) [72] waiting None).
Proof.
  destruct (queue_grows_at_the_end (fun _ => 0) (step 0 crc_pending 75)
              (mkPort [] [])) as (_ & H & _).
  apply (H [72] []). reflexivity.
Defined.

(** ** The receive loop *)

(** X10: with both callbacks supplied, the loop of [update] run through
    [fAvailable] and [fRead] stops after as many passes as bytes were
    waiting; [update] returns what it computed, the port has nothing left to
    read and nothing was written to it. *)
Theorem update_reads_every_waiting_byte (clock : nat -> Time) (r : RS485)
  (p : Port) :
  _callbackAvailable r = true ->
  _callbackRead r = true ->
  exists r' p',
    update_loop (length (waiting_bytes p)) clock 0 r p = Some (r', p')
    /\ update clock r p = Ok (available r', r', p')
    /\ fAvailable p' = 0
    /\ fRead p' = None
    /\ written p' = written p.
Proof.
  intros Ha Hr. do 2 eexists.
  split; [apply update_loop_drains; lia | ].
  unfold update. rewrite Ha, Hr. cbn [negb]. repeat split.
Qed.

Lemma update_reads_every_waiting_byte_witness :
  exists r' p',
    update_loop 3 (fun _ => 0) 0 (init false true true) (mkPort [9] [2; 3; 15])
    = Some (r', p')
    /\ update (fun _ => 0) (init false true true) (mkPort [9] [2; 3; 15])
       = Ok (available r', r', p')
    /\ fAvailable p' = 0
    /\ fRead p' = None
    /\ written p' = [9].
Proof.
  exact (update_reads_every_waiting_byte (fun _ => 0) (init false true true)
           (mkPort [9] [2; 3; 15]) eq_refl eq_refl).
Defined.

(** ** The start time *)

Lemma step_startTime (now : Time) (r : RS485) (byte : Z) :
  _startTime (step now r byte)
  = if byte =? _STX then Some now else _startTime r.
Proof. step_cases; reflexivity. Qed.

Lemma last_STX_found (bytes : list Z) :
  forall (k j : nat),
    last_STX k bytes (Some j)
    = match last_STX k bytes None with
      | Some i => Some i
      | None => Some j
      end.
Proof.
  induction bytes as [ | b bytes IH]; intros k j; cbn [last_STX].
  - reflexivity.
  - destruct (b =? _STX).
    + rewrite (IH (S k) k). destruct (last_STX (S k) bytes None); reflexivity.
    + apply IH.
Qed.

(** X11: after a stream has been processed, [getPacketStartTime] is the
    clock reading at the last start marker of the stream, whether or not
    that packet was completed; a stream without start marker leaves it as it
    was. *)
Theorem startTime_is_last_STX (clock : nat -> Time) (bytes : list Z) :
  forall (k : nat) (r : RS485),
    getPacketStartTime (drain clock k r bytes)
    = match last_STX k bytes None with
      | Some i => Some (clock i)
      | None => getPacketStartTime r
      end.
Proof.
  unfold getPacketStartTime.
  induction bytes as [ | b bytes IH]; intros k r; cbn [drain last_STX].
  - reflexivity.
  - rewrite IH, step_startTime. destruct (b =? _STX).
    + rewrite last_STX_found.
      destruct (last_STX (S k) bytes None); reflexivity.
    + reflexivity.
Qed.

(** ** More on the checksum *)

(** X12: the CRC-8 of any sequence of integers is in 0..255, so it always
    encodes into two legal wire bytes. *)
Theorem crc8_fits_a_byte (data : list Z) :
  is_byte (_crc8 data)
  /\ In (complemented (Z.shiftr (_crc8 data) 4)) alphabet
  /\ In (complemented (Z.land (_crc8 data) 15)) alphabet.
Proof.
  pose proof (crc8_byte_range data) as Hc.
  split; [exact Hc | ]. split; apply complemented_in_alphabet.
  - apply high_nibble_range. exact Hc.
  - apply low_nibble_range.
Qed.

Lemma forall_bytes2 (f : Z -> Z -> bool) :
  forallb (fun a => forallb (f a) all_bytes) all_bytes = true ->
  forall a b, is_byte a -> is_byte b -> f a b = true.
Proof.
  intros H a b Ha Hb.
  pose proof (forall_bytes (fun a => forallb (f a) all_bytes) H a Ha) as H1.
  cbv beta in H1. exact (forall_bytes (f a) H1 b Hb).
Qed.

Lemma crc8_snoc (data : list Z) (b : Z) :
  _crc8 (data ++ [b]) = crc8_byte (_crc8 data) b.
Proof. unfold _crc8. rewrite fold_left_app. reflexivity. Qed.

Lemma crc8_byte_self (c : Z) : is_byte c -> crc8_byte c c = 0.
Proof.
  intros Hc. apply Z.eqb_eq. revert c Hc.
  apply (forall_bytes (fun c => crc8_byte c c =? 0)).
  vm_compute. reflexivity.
Qed.

(** X13: appending its own CRC-8 to any sequence gives a sequence whose
    CRC-8 is 0. *)
Theorem crc8_of_data_with_crc_is_zero (data : list Z) :
  _crc8 (data ++ [_crc8 data]) = 0.
Proof.
  rewrite crc8_snoc. apply crc8_byte_self. apply crc8_byte_range.
Qed.

Lemma crc8_byte_injective_byte (c b b' : Z) :
  is_byte c -> is_byte b -> is_byte b' ->
  crc8_byte c b = crc8_byte c b' -> b = b'.
Proof.
  intros Hc Hb Hb' E.
  assert (Hx : forall c b, is_byte c -> is_byte b ->
                 crc8_byte c b = crc8_byte (Z.lxor c b) 0
                 /\ is_byte (Z.lxor c b)).
  { intros c0 b0 Hc0 Hb0.
    pose proof (forall_bytes2
                  (fun c b => (crc8_byte c b =? crc8_byte (Z.lxor c b) 0)
                              && (0 <=? Z.lxor c b) && (Z.lxor c b <? 256))
                  ltac:(vm_compute; reflexivity) c0 b0 Hc0 Hb0) as H.
    cbv beta in H. unfold is_byte. lia. }
  assert (Hg : forall x y, is_byte x -> is_byte y ->
                 crc8_byte x 0 = crc8_byte y 0 -> x = y).
  { intros x y Hx0 Hy0 E0.
    pose proof (forall_bytes2
                  (fun x y => negb (crc8_byte x 0 =? crc8_byte y 0) || (x =? y))
                  ltac:(vm_compute; reflexivity) x y Hx0 Hy0) as H.
    cbv beta in H. rewrite E0, Z.eqb_refl in H. cbn in H. lia. }
  destruct (Hx c b Hc Hb) as [E1 H1]. destruct (Hx c b' Hc Hb') as [E2 H2].
  rewrite E1, E2 in E. apply Hg in E; [ | assumption | assumption].
  rewrite <- (Z.lxor_0_l b), <- (Z.lxor_0_l b'), <- (Z.lxor_nilpotent c).
  rewrite !Z.lxor_assoc, E. reflexivity.
Qed.

Lemma crc8_byte_injective_crc (c c' b : Z) :
  is_byte c -> is_byte c' -> is_byte b ->
  crc8_byte c b = crc8_byte c' b -> c = c'.
Proof.
  intros Hc Hc' Hb E.
  pose proof (forall_bytes2
                (fun c b => crc8_byte c b =? crc8_byte b c)
                ltac:(vm_compute; reflexivity)) as Hsym.
  pose proof (Hsym c b Hc Hb) as H1. pose proof (Hsym c' b Hc' Hb) as H2.
  cbv beta in H1, H2. apply Z.eqb_eq in H1, H2.
  rewrite H1, H2 in E.
  apply (crc8_byte_injective_byte b c c'); assumption.
Qed.

Lemma crc8_fold_injective (post : list Z) :
  Forall is_byte post ->
  forall c c', is_byte c -> is_byte c' ->
    fold_left crc8_byte post c = fold_left crc8_byte post c' -> c = c'.
Proof.
  induction 1 as [ | b post Hb _ IH]; intros c c' Hc Hc' E; cbn [fold_left] in E.
  - exact E.
  - apply IH in E; try (apply crc8_byte_byte; assumption).
    apply (crc8_byte_injective_crc c c' b); assumption.
Qed.

Lemma crc8_changes_with_one_byte (pre post : list Z) (b b' : Z) :
  Forall is_byte post ->
  is_byte b -> is_byte b' -> b' <> b ->
  _crc8 (pre ++ b' :: post) <> _crc8 (pre ++ b :: post).
Proof.
  intros Hpost Hb Hb' Hne E. apply Hne.
  unfold _crc8 in E. rewrite !fold_left_app in E. cbn [fold_left] in E.
  pose proof (crc8_byte_range pre) as Hc. unfold _crc8 in Hc.
  apply crc8_fold_injective in E;
    [ | assumption | apply crc8_byte_byte; assumption
      | apply crc8_byte_byte; assumption].
  apply (crc8_byte_injective_byte _ b' b Hc Hb' Hb E).
Qed.

(** X14: changing one byte of a payload to another byte value always
    changes its CRC-8. *)
Theorem crc8_detects_one_changed_byte (pre post : list Z) (b b' : Z) :
  Forall is_byte post ->
  is_byte b -> is_byte b' -> b <> b' ->
  _crc8 (pre ++ b :: post) <> _crc8 (pre ++ b' :: post).
Proof.
  intros Hpost Hb Hb' Hne.
  apply crc8_changes_with_one_byte; assumption.
Qed.

Lemma crc8_detects_one_changed_byte_witness :
  _crc8 ([1; 2] ++ 3 :: [4]) <> _crc8 ([1; 2] ++ 131 :: [4]).
Proof.
  apply crc8_detects_one_changed_byte.
  - repeat constructor; unfold is_byte; lia.
  - unfold is_byte; lia.
  - unfold is_byte; lia.
  - lia.
Defined.

(** ** Damaged frames *)

Lemma drain_frame (clock : nat -> Time) (k : nat) (r : RS485)
  (payload : list Z) (crc : Z) :
  packet_ok payload -> is_byte crc ->
  drain clock k r (frame payload crc) =
    if _crc8 payload =? crc
    then mkRS485 (_callbackWrite r) (_callbackAvailable r) (_callbackRead r)
                 (_packets r ++ [payload])
                 (if State_eqb (state r) waiting
                  then errorCount r else errorCount r + 1)
                 (Some (clock k)) payload waiting None
    else mkRS485 (_callbackWrite r) (_callbackAvailable r) (_callbackRead r)
                 (_packets r)
                 ((if State_eqb (state r) waiting
                   then errorCount r else errorCount r + 1) + 1)
                 (Some (clock k)) [] waiting None.
Proof.
  intros [Hb Hlen] Hc. unfold frame. cbn [app drain].
  rewrite step_STX, drain_app, drain_payload; fields;
    [ | exact Hb | reflexivity | reflexivity | cbn [length]; lia].
  cbn [app drain]. rewrite step_ETX. fields.
  rewrite drain_enc_crc; fields; [ | exact Hc | reflexivity | reflexivity].
  destruct (_crc8 payload =? crc); reflexivity.
Qed.

(** X15: a frame whose checksum byte is not the CRC-8 of the payload it
    carries is dropped: arriving at a [waiting] receiver it costs exactly
    one error, adds nothing to the queue and leaves the receiver [waiting]
    with empty buffers; a well-formed packet right after it is queued. *)
Theorem bad_checksum_drops_frame (clock : nat -> Time) (k : nat) (r : RS485)
  (payload next : list Z) (crc : Z) :
  state r = waiting ->
  packet_ok payload -> is_byte crc -> crc <> _crc8 payload ->
  packet_ok next ->
  _packets (drain clock k r (frame payload crc)) = _packets r
  /\ errorCount (drain clock k r (frame payload crc)) = errorCount r + 1
  /\ state (drain clock k r (frame payload crc)) = waiting
  /\ _data (drain clock k r (frame payload crc)) = []
  /\ _firstNibble (drain clock k r (frame payload crc)) = None
  /\ _packets (drain clock k r (frame payload crc ++ wire next))
     = _packets r ++ [next]
  /\ errorCount (drain clock k r (frame payload crc ++ wire next))
     = errorCount r + 1.
Proof.
  intros Hs Hp Hc Hne [Hnb Hnl].
  rewrite drain_app, drain_frame by assumption.
  replace (_crc8 payload =? crc) with false
    by (symmetry; apply Z.eqb_neq; congruence).
  rewrite drain_wire by assumption. rewrite Hs. fields. cbn [State_eqb].
  repeat split.
Qed.

Lemma bad_checksum_drops_frame_witness :
  _packets (drain (fun _ => 0) 0 (init true true true) (frame [72] 0)) = []
  /\ errorCount (drain (fun _ => 0) 0 (init true true true) (frame [72] 0)) = 1
  /\ state (drain (fun _ => 0) 0 (init true true true) (frame [72] 0)) = waiting
  /\ _data (drain (fun _ => 0) 0 (init true true true) (frame [72] 0)) = []
  /\ _firstNibble (drain (fun _ => 0) 0 (init true true true) (frame [72] 0))
     = None
  /\ _packets (drain (fun _ => 0) 0 (init true true true)
                 (frame [72] 0 ++ wire [5])) = [[5]]
  /\ errorCount (drain (fun _ => 0) 0 (init true true true)
                   (frame [72] 0 ++ wire [5])) = 1.
Proof.
  refine (bad_checksum_drops_frame (fun _ => 0) 0 (init true true true)
            [72] [5] 0 eq_refl _ _ _ _).
  - unfold packet_ok, is_byte. repeat constructor; cbn [length]; lia.
  - unfold is_byte. lia.
  - discriminate.
  - unfold packet_ok, is_byte. repeat constructor; cbn [length]; lia.
Defined.

(** X16: a packet in which one payload byte was changed on the way, its
    checksum intact, is never queued: the receiver counts one error and
    stays ready for the next packet. *)
Theorem one_damaged_byte_is_rejected (clock : nat -> Time) (k : nat)
  (r : RS485) (pre post : list Z) (b b' : Z) :
  state r = waiting ->
  packet_ok (pre ++ b :: post) ->
  is_byte b' -> b' <> b ->
  _packets (drain clock k r
              (frame (pre ++ b' :: post) (_crc8 (pre ++ b :: post))))
  = _packets r
  /\ errorCount (drain clock k r
                   (frame (pre ++ b' :: post) (_crc8 (pre ++ b :: post))))
     = errorCount r + 1
  /\ state (drain clock k r
              (frame (pre ++ b' :: post) (_crc8 (pre ++ b :: post))))
     = waiting.
Proof.
  intros Hs [Hb Hlen] Hb' Hne.
  apply Forall_app in Hb. destruct Hb as [Hpre Hbp].
  inversion Hbp as [ | ? ? Hb0 Hpost]; subst.
  assert (Hp' : packet_ok (pre ++ b' :: post)).
  { split.
    - apply Forall_app. split; [exact Hpre | constructor; assumption].
    - rewrite length_app in *. exact Hlen. }
  rewrite drain_frame; [ | exact Hp' | apply crc8_byte_range].
  replace (_crc8 (pre ++ b' :: post) =? _crc8 (pre ++ b :: post)) with false.
  - rewrite Hs. fields. cbn [State_eqb]. repeat split.
  - symmetry. apply Z.eqb_neq.
    apply crc8_changes_with_one_byte; assumption.
Qed.

Lemma one_damaged_byte_is_rejected_witness :
  _packets (drain (fun _ => 0) 0 (init true true true)
              (frame ([1] ++ 9 :: [3]) (_crc8 ([1] ++ 2 :: [3])))) = []
  /\ errorCount (drain (fun _ => 0) 0 (init true true true)
                   (frame ([1] ++ 9 :: [3]) (_crc8 ([1] ++ 2 :: [3])))) = 1
  /\ state (drain (fun _ => 0) 0 (init true true true)
              (frame ([1] ++ 9 :: [3]) (_crc8 ([1] ++ 2 :: [3])))) = waiting.
Proof.
  refine (one_damaged_byte_is_rejected (fun _ => 0) 0 (init true true true)
            [1] [3] 2 9 eq_refl _ _ _).
  - unfold packet_ok, is_byte. repeat constructor; cbn [length app]; lia.
  - unfold is_byte. lia.
  - lia.
Defined.

(** ** An end marker after a completed packet *)

(** X17: the payload buffer outlives a completed packet, and an end marker
    is accepted while [waiting]; so an end marker and the same checksum,
    arriving after a packet, queue that packet a second time, with no error
    counted. *)
Theorem end_marker_requeues_last_packet (clock : nat -> Time) (k : nat)
  (r : RS485) (payload : list Z) :
  packet_ok payload ->
  _packets (drain clock k r (wire payload ++ [_ETX] ++ enc (_crc8 payload)))
  = _packets r ++ [payload; payload]
  /\ errorCount (drain clock k r (wire payload ++ [_ETX] ++ enc (_crc8 payload)))
     = errorCount (drain clock k r (wire payload))
  /\ state (drain clock k r (wire payload ++ [_ETX] ++ enc (_crc8 payload)))
     = waiting.
Proof.
  intros [Hb Hlen].
  rewrite drain_app, drain_wire by assumption.
  cbn [app drain]. rewrite step_ETX. fields.
  rewrite drain_enc_crc; fields;
    [ | apply crc8_byte_range | reflexivity | reflexivity].
  rewrite Z.eqb_refl. fields. rewrite <- app_assoc. repeat split.
Qed.

Lemma end_marker_requeues_last_packet_witness :
  _packets (drain (fun _ => 0) 0 (init true true true)
              (wire [72] ++ [_ETX] ++ enc (_crc8 [72]))) = [[72]; [72]]
  /\ errorCount (drain (fun _ => 0) 0 (init true true true)
                   (wire [72] ++ [_ETX] ++ enc (_crc8 [72]))) = 0
  /\ state (drain (fun _ => 0) 0 (init true true true)
              (wire [72] ++ [_ETX] ++ enc (_crc8 [72]))) = waiting.
Proof.
  refine (end_marker_requeues_last_packet (fun _ => 0) 0 (init true true true)
            [72] _).
  unfold packet_ok, is_byte. repeat constructor; cbn [length]; lia.
Defined.

(** ** Packets in progress, continued *)

(** X18: for a freshly constructed receiver and any stream, if the last
    start marker has not been followed by a counted error or a completed
    packet, [isPacketStarted] answers true. *)
Theorem open_packet_is_reported (clock : nat -> Time) (w a rd : bool)
  (bytes : list Z) :
  snd (drain_open clock 0 (init w a rd) false bytes) = true ->
  isPacketStarted (drain clock 0 (init w a rd) bytes) = true.
Proof.
  intros Hopen. unfold isPacketStarted.
  rewrite <- (drain_open_fst clock bytes 0%nat (init w a rd) false).
  apply open_implies_started in Hopen; [ | discriminate].
  destruct (State_eqb_spec
              (state (fst (drain_open clock 0 (init w a rd) false bytes)))
              waiting); [contradiction | reflexivity].
Qed.

Lemma open_packet_is_reported_witness :
  isPacketStarted (drain (fun _ => 0) 0 (init true true true) [2; 75; 135; 3])
  = true.
Proof.
  exact (open_packet_is_reported (fun _ => 0) true true true [2; 75; 135; 3]
           eq_refl).
Defined.

Lemma drain_partial (clock : nat -> Time) (k : nat) (r : RS485)
  (payload : list Z) :
  packet_ok payload ->
  drain clock k r (_STX :: flat_map enc payload) =
    mkRS485 (_callbackWrite r) (_callbackAvailable r) (_callbackRead r)
            (_packets r)
            (if State_eqb (state r) waiting then errorCount r else errorCount r + 1)
            (Some (clock k)) payload receiveData None.
Proof.
  intros [Hb Hlen]. cbn [drain].
  rewrite step_STX, drain_payload; fields;
    [reflexivity | exact Hb | reflexivity | reflexivity | cbn [length]; lia].
Qed.

(** X19: after a start marker and the wire bytes of a payload that fits,
    the payload sits in the buffer, nothing is queued yet and
    [isPacketStarted] is true.  From there, a byte of 0..255 that is
    neither a marker nor one of the sixteen wire bytes, or a wire byte
    followed by the end marker (an end marker between two nibbles), aborts
    the packet: one more error, the receiver [waiting] with empty buffers,
    the queue untouched. *)
Theorem framing_violation_aborts_packet (clock : nat -> Time) (k : nat)
  (r : RS485) (payload : list Z) :
  packet_ok payload ->
  (_data (drain clock k r (_STX :: flat_map enc payload)) = payload
   /\ _packets (drain clock k r (_STX :: flat_map enc payload)) = _packets r
   /\ isPacketStarted (drain clock k r (_STX :: flat_map enc payload)) = true)
  /\ (forall bad,
        is_byte bad -> bad <> _STX -> bad <> _ETX -> ~ In bad alphabet ->
        drain clock k r (_STX :: flat_map enc payload ++ [bad])
        = reset (bump_errorCount (drain clock k r (_STX :: flat_map enc payload))))
  /\ (forall n,
        0 <= n < 16 ->
        drain clock k r (_STX :: flat_map enc payload ++ [complemented n; _ETX])
        = reset (bump_errorCount (drain clock k r (_STX :: flat_map enc payload)))).
Proof.
  intros Hp. pose proof (drain_partial clock k r payload Hp) as Hd.
  split; [rewrite Hd; repeat split | ].
  split.
  - intros bad Hbad H2 H3 Hout.
    rewrite app_comm_cons, drain_app, Hd. cbn [drain].
    unfold step. apply Z.eqb_neq in H2, H3. rewrite H2, H3. fields.
    cbn [State_eqb].
    rewrite (outside_alphabet_malformed bad Hbad Hout). reflexivity.
  - intros n Hn.
    rewrite app_comm_cons, drain_app, Hd. cbn [drain].
    rewrite step_first_nibble; [ | exact Hn | discriminate | reflexivity].
    rewrite step_ETX. reflexivity.
Qed.

Lemma framing_violation_aborts_packet_witness :
  drain (fun _ => 0) 0 (init true true true) (_STX :: flat_map enc [72] ++ [16])
  = mkRS485 true true true [] 1 (Some 0) [] waiting None
  /\ drain (fun _ => 0) 0 (init true true true)
       (_STX :: flat_map enc [72] ++ [complemented 4; _ETX])
     = mkRS485 true true true [] 1 (Some 0) [] waiting None.
Proof.
  destruct (framing_violation_aborts_packet (fun _ => 0) 0 (init true true true)
              [72]) as (_ & Hbad & Hsplit).
  - unfold packet_ok, is_byte. repeat constructor; cbn [length]; lia.
  - split.
    + apply (Hbad 16).
      * unfold is_byte. lia.
      * unfold _STX. lia.
      * unfold _ETX. lia.
      * unfold alphabet. cbn [In]. lia.
    + apply (Hsplit 4). lia.
Defined.
